(** * The bootnode start-up sequence (cmd/bootnode/main.go)

    A shallow embedding of [main]: the command-line flags are a record, the
    collaborators [main] calls (nat, crypto, netutil, net, snet, discover,
    discv5) are the fields of a [World], and every call [main] makes is
    recorded, in program order, in a trace of events.  [main] ends in one of
    three ways: the process exits with a status, [utils.Fatalf] aborts it, or
    it reaches the final [select {}] and blocks for ever. *)

From Stdlib Require Import ZArith List String Ascii Bool Lia DecimalString.
From Stdlib Require DecimalPos DecimalZ.
Import ListNotations.

Local Open Scope string_scope.
Local Open Scope Z_scope.
Local Open Scope list_scope.

(** ** Data *)

(** A Go [error], by its message. *)
Definition error := string.

(** A Go pair [(value, error)] in which exactly one side is meaningful. *)
Inductive result (A : Type) : Type :=
| Ok (a : A)
| Err (e : error).
Arguments Ok {A} a.
Arguments Err {A} e.

(** [net.IP] is a byte slice. *)
Definition IP := list Z.

Record UDPAddr := mkUDPAddr { IP_ : IP; Port : Z; Zone : string }.

(** An open [*net.UDPConn]: its descriptor and the address it is bound to
    (what [conn.LocalAddr()] returns). *)
Record UDPConn := mkUDPConn { fd : Z; LocalAddr : UDPAddr }.

(** [addr.IA]: the ISD number and the AS number of a SCION address. *)
Record IA := mkIA { I : Z; A : Z }.

Record snet_Addr := mkSnetAddr { IA_ : IA; Host : list Z; L4Port : Z }.

Record snet_Conn := mkSnetConn { sfd : Z; sLocal : snet_Addr }.

Record PublicKey := mkPublicKey { X : Z; Y : Z }.
Record PrivateKey := mkPrivateKey { Public : PublicKey; D : Z }.

(** [netutil.Netlist]: a list of IP networks, each an address and a mask. *)
Definition Netlist := list (IP * IP).

(** A non-nil [nat.Interface]; a nil one is [None]. *)
Inductive nat_Interface : Type :=
| NatAny
| NatUPnP
| NatPMP
| NatExtIP (ip : IP).

(** [discover.Config], with the fields [main] sets. *)
Record Config := mkConfig {
  cfgPrivateKey : PrivateKey;
  AnnounceAddr : UDPAddr;
  AnnounceAddrSCION : string;
  NetRestrict : option Netlist
}.

(** The flags of [main], after [flag.Parse]. *)
Record Flags := mkFlags {
  listenAddr : string;
  genKey : string;
  writeAddr : bool;
  nodeKeyFile : string;
  nodeKeyHex : string;
  natdesc : string;
  netrestrict : string;
  runv5 : bool;
  verbosity : Z;
  vmodule : string;
  scionAddrStr : string
}.

(** The defaults given to [flag.String], [flag.Bool] and [flag.StringVar]
    ([log.LvlInfo] is 3). *)
Definition defaultFlags : Flags :=
  {| listenAddr := ":30301"; genKey := ""; writeAddr := false;
     nodeKeyFile := ""; nodeKeyHex := ""; natdesc := "none";
     netrestrict := ""; runv5 := false; verbosity := 3; vmodule := "";
     scionAddrStr := "" |}.

(** ** The collaborators

    What each function [main] calls returns.  A pointer that may be nil is an
    [option]; an [error] that may be nil is an [option error].
    [snet_Addr_String] is the [String] method of [snet.Addr], which has a
    pointer receiver: [main] calls it on [scionAddr] whether or not that
    pointer is nil, so its argument is an [option]. *)
Record World := mkWorld {
  nat_Parse : string -> result (option nat_Interface);
  nat_ExternalIP : nat_Interface -> result IP;
  crypto_GenerateKey : result PrivateKey;
  crypto_SaveECDSA : string -> PrivateKey -> option error;
  crypto_LoadECDSA : string -> result PrivateKey;
  crypto_HexToECDSA : string -> result PrivateKey;
  discover_PubkeyID : PublicKey -> string;
  netutil_ParseNetlist : string -> result Netlist;
  net_ResolveUDPAddr : string -> string -> result UDPAddr;
  net_ListenUDP : string -> UDPAddr -> result UDPConn;
  IP_IsLoopback : IP -> bool;
  snet_AddrFromString : string -> result snet_Addr;
  snet_Init : IA -> string -> string -> option error;
  snet_ListenSCION : string -> snet_Addr -> result snet_Conn;
  snet_Addr_String : option snet_Addr -> string;
  discv5_ListenUDP :
    PrivateKey -> UDPConn -> UDPAddr -> string -> option Netlist -> option error;
  discover_ListenUDP : UDPConn -> Config -> option error;
  discover_ListenUDPSCION : UDPConn -> snet_Conn -> Config -> option error
}.

(** ** Events and outcomes *)

(** One event per call [main] makes, with the arguments of the call.
    [EvNatMap] is the start of the goroutine [go nat.Map(...)]. *)
Inductive Event : Type :=
| EvNatParse (desc : string)
| EvGenerateKey
| EvSaveECDSA (file : string) (key : PrivateKey)
| EvLoadECDSA (file : string)
| EvHexToECDSA (hex : string)
| EvPrint (s : string)
| EvParseNetlist (s : string)
| EvResolveUDPAddr (network address : string)
| EvListenUDP (network : string) (laddr : UDPAddr)
| EvAddrFromString (s : string)
| EvSnetInit (ia : IA) (sciondPath dispatcherPath : string)
| EvListenSCION (network : string) (laddr : snet_Addr)
| EvNatMap (m : nat_Interface) (protocol : string) (extport intport : Z)
           (name : string)
| EvExternalIP (m : nat_Interface)
| EvDiscv5ListenUDP (key : PrivateKey) (conn : UDPConn) (realaddr : UDPAddr)
                    (netid : string) (restrict : option Netlist)
| EvDiscoverListenUDP (conn : UDPConn) (cfg : Config)
| EvDiscoverListenUDPSCION (conn : UDPConn) (sconn : snet_Conn) (cfg : Config).

(** How the process ends: [os.Exit] or a return from [main] ([Exit]),
    [utils.Fatalf] ([Fatal], which exits with status 1), or [select {}]
    ([Block]). *)
Inductive Outcome : Type :=
| Exit (status : Z)
| Fatal (msg : string)
| Block.

(** ** The monad of [main]: a trace, and either the end of the process or a
    value to go on with. *)
Inductive Step (T : Type) : Type :=
| Done (o : Outcome)
| Ret (a : T).
Arguments Done {T} o.
Arguments Ret {T} a.

Definition M (T : Type) : Type := (list Event * Step T)%type.

Definition ret {T} (a : T) : M T := ([], Ret a).

Definition bind {T U} (m : M T) (k : T -> M U) : M U :=
  match m with
  | (t, Done o) => (t, Done o)
  | (t, Ret a) => let (t', r) := k a in (t ++ t', r)
  end.

Notation "x <- m ;; k" := (bind m (fun x => k))
  (at level 61, m at next level, right associativity).
Notation "m ;;; k" := (bind m (fun _ => k))
  (at level 61, right associativity).

(** A call to a collaborator: the event, then what the world answers. *)
Definition call {T} (ev : Event) (r : T) : M T := ([ev], Ret r).

(** [utils.Fatalf]: the message is printed and the process exits. *)
Definition Fatalf {T} (msg : string) : M T := ([], Done (Fatal msg)).

(** [os.Exit(status)], and [return] from [main] with status 0. *)
Definition os_Exit {T} (status : Z) : M T := ([], Done (Exit status)).

(** [select {}]. *)
Definition block {T} : M T := ([], Done Block).

Definition trace {T} (m : M T) : list Event := fst m.

Definition outcome (m : M Empty_set) : Outcome :=
  match snd m with
  | Done o => o
  | Ret a => match a with end
  end.

(** ** Small Go functions *)

(** [strconv.Itoa]. *)
Definition Itoa (z : Z) : string := NilZero.string_of_int (Z.to_int z).

(** The conversion [int(x)] of an unsigned 64-bit (or narrower) value on a
    64-bit platform: the bit pattern read as signed. *)
Definition int (z : Z) : Z :=
  let r := z mod 2 ^ 64 in
  if r <? 2 ^ 63 then r else r - 2 ^ 64.

Definition nonempty (s : string) : bool := negb (s =? "")%string.

(** ** [main], block by block *)

(** Lines 67-70. *)
Definition parseNat (w : World) (f : Flags) : M (option nat_Interface) :=
  r <- call (EvNatParse (natdesc f)) (nat_Parse w (natdesc f)) ;;
  match r with
  | Err e => Fatalf ("-nat: " ++ e)
  | Ok natm => ret natm
  end.

(** Lines 71-93: the [switch] that obtains [nodeKey]. *)
Definition loadNodeKey (w : World) (f : Flags) : M PrivateKey :=
  if nonempty (genKey f) then
    r <- call EvGenerateKey (crypto_GenerateKey w) ;;
    match r with
    | Err e => Fatalf ("could not generate key: " ++ e)
    | Ok nodeKey =>
        s <- call (EvSaveECDSA (genKey f) nodeKey)
                  (crypto_SaveECDSA w (genKey f) nodeKey) ;;
        match s with
        | Some e => Fatalf e
        | None => os_Exit 0
        end
    end
  else if negb (nonempty (nodeKeyFile f)) && negb (nonempty (nodeKeyHex f)) then
    Fatalf "Use -nodekey or -nodekeyhex to specify a private key"
  else if nonempty (nodeKeyFile f) && nonempty (nodeKeyHex f) then
    Fatalf "Options -nodekey and -nodekeyhex are mutually exclusive"
  else if nonempty (nodeKeyFile f) then
    r <- call (EvLoadECDSA (nodeKeyFile f)) (crypto_LoadECDSA w (nodeKeyFile f)) ;;
    match r with
    | Err e => Fatalf ("-nodekey: " ++ e)
    | Ok nodeKey => ret nodeKey
    end
  else
    r <- call (EvHexToECDSA (nodeKeyHex f)) (crypto_HexToECDSA w (nodeKeyHex f)) ;;
    match r with
    | Err e => Fatalf ("-nodekeyhex: " ++ e)
    | Ok nodeKey => ret nodeKey
    end.

(** Lines 95-98. *)
Definition writeAddress (w : World) (f : Flags) (nodeKey : PrivateKey) : M unit :=
  if writeAddr f then
    call (EvPrint (discover_PubkeyID w (Public nodeKey) ++ "
")) tt ;;;
    os_Exit 0
  else ret tt.

(** Lines 100-106. *)
Definition parseRestrict (w : World) (f : Flags) : M (option Netlist) :=
  if nonempty (netrestrict f) then
    r <- call (EvParseNetlist (netrestrict f))
              (netutil_ParseNetlist w (netrestrict f)) ;;
    match r with
    | Err e => Fatalf ("-netrestrict: " ++ e)
    | Ok l => ret (Some l)
    end
  else ret None.

(** Lines 108-118: the primary socket. *)
Definition listenPrimary (w : World) (f : Flags) : M UDPConn :=
  r <- call (EvResolveUDPAddr "udp" (listenAddr f))
            (net_ResolveUDPAddr w "udp" (listenAddr f)) ;;
  match r with
  | Err e => Fatalf ("-ResolveUDPAddr: " ++ e)
  | Ok addr =>
      c <- call (EvListenUDP "udp" addr) (net_ListenUDP w "udp" addr) ;;
      match c with
      | Err e => Fatalf ("-ListenUDP: " ++ e)
      | Ok conn => ret conn
      end
  end.

(** Line 127. *)
Definition sciondAddrOf (a : snet_Addr) : string :=
  "/run/shm/sciond/sd" ++ Itoa (int (I (IA_ a))) ++ "-"
    ++ Itoa (int (A (IA_ a))) ++ ".sock".

Arguments sciondAddrOf : simpl never.

(** Line 128. *)
Definition dispatcherAddr : string := "/run/shm/dispatcher/default.sock".

(** Lines 120-138: the SCION socket.  The result is the pair
    [(scionAddr, sconn)], both nil when the flag is empty.  The error that
    [snet.Init] returns is dropped (line 129). *)
Definition setupSCION (w : World) (f : Flags)
  : M (option snet_Addr * option snet_Conn) :=
  if nonempty (scionAddrStr f) then
    r <- call (EvAddrFromString (scionAddrStr f))
              (snet_AddrFromString w (scionAddrStr f)) ;;
    match r with
    | Err e => Fatalf ("Scion address needs to be specified with -scion: " ++ e)
    | Ok scionAddr =>
        call (EvSnetInit (IA_ scionAddr) (sciondAddrOf scionAddr) dispatcherAddr)
             (snet_Init w (IA_ scionAddr) (sciondAddrOf scionAddr) dispatcherAddr) ;;;
        c <- call (EvListenSCION "udp4" scionAddr)
                  (snet_ListenSCION w "udp4" scionAddr) ;;
        match c with
        | Err e => Fatalf ("-SCION ListenUDP: " ++ e)
        | Ok sconn => ret (Some scionAddr, Some sconn)
        end
    end
  else ret (None, None).

(** Lines 140-149: the address to announce. *)
Definition natAnnounce (w : World) (natm : option nat_Interface)
    (conn : UDPConn) : M UDPAddr :=
  let realaddr := LocalAddr conn in
  match natm with
  | Some m =>
      (if negb (IP_IsLoopback w (IP_ realaddr)) then
         call (EvNatMap m "udp" (Port realaddr) (Port realaddr)
                        "ethereum discovery") tt
       else ret tt) ;;;
      r <- call (EvExternalIP m) (nat_ExternalIP w m) ;;
      match r with
      | Ok ext => ret {| IP_ := ext; Port := Port realaddr; Zone := "" |}
      | Err _ => ret realaddr
      end
  | None => ret realaddr
  end.

(** Lines 157-162. *)
Definition mkCfg (w : World) (nodeKey : PrivateKey) (realaddr : UDPAddr)
    (scionAddr : option snet_Addr) (restrictList : option Netlist) : Config :=
  {| cfgPrivateKey := nodeKey;
     AnnounceAddr := realaddr;
     AnnounceAddrSCION := snet_Addr_String w scionAddr;
     NetRestrict := restrictList |}.

(** Lines 151-176: the engine. *)
Definition dispatch (w : World) (f : Flags) (nodeKey : PrivateKey)
    (conn : UDPConn) (scionAddr : option snet_Addr) (sconn : option snet_Conn)
    (realaddr : UDPAddr) (restrictList : option Netlist) : M unit :=
  if runv5 f then
    call (EvPrint "DISCV5 ListenUDP Bootnode main.go
") tt ;;;
    r <- call (EvDiscv5ListenUDP nodeKey conn realaddr "" restrictList)
              (discv5_ListenUDP w nodeKey conn realaddr "" restrictList) ;;
    match r with
    | Some e => Fatalf e
    | None => ret tt
    end
  else
    let cfg := mkCfg w nodeKey realaddr scionAddr restrictList in
    call (EvPrint "DISCOVER ListenUDP Bootnode main.go
") tt ;;;
    match scionAddr, sconn with
    | Some _, Some sc =>
        r <- call (EvDiscoverListenUDPSCION conn sc cfg)
                  (discover_ListenUDPSCION w conn sc cfg) ;;
        match r with
        | Some e => Fatalf e
        | None => ret tt
        end
    | _, _ =>
        r <- call (EvDiscoverListenUDP conn cfg)
                  (discover_ListenUDP w conn cfg) ;;
        match r with
        | Some e => Fatalf e
        | None => ret tt
        end
    end.

(** [main] (lines 40-179).  The logging set-up of lines 62-65 calls none of
    the collaborators above. *)
Definition main (w : World) (f : Flags) : M Empty_set :=
  natm <- parseNat w f ;;
  nodeKey <- loadNodeKey w f ;;
  writeAddress w f nodeKey ;;;
  restrictList <- parseRestrict w f ;;
  conn <- listenPrimary w f ;;
  sc <- setupSCION w f ;;
  realaddr <- natAnnounce w natm conn ;;
  dispatch w f nodeKey conn (fst sc) (snd sc) realaddr restrictList ;;;
  block.

(** ** Prefixes of [main]

    [main] up to the end of a block, returning the variables that are live
    there.  [main_from_*] below show that [main] is each prefix followed by
    the rest of the function. *)

(** Up to line 98: [natm] and [nodeKey]. *)
Definition upToIdentity (w : World) (f : Flags)
  : M (option nat_Interface * PrivateKey) :=
  natm <- parseNat w f ;;
  nodeKey <- loadNodeKey w f ;;
  writeAddress w f nodeKey ;;;
  ret (natm, nodeKey).

(** Up to line 118: also [restrictList] and [conn]. *)
Definition upToPrimary (w : World) (f : Flags)
  : M (option nat_Interface * PrivateKey * option Netlist * UDPConn) :=
  st <- upToIdentity w f ;;
  restrictList <- parseRestrict w f ;;
  conn <- listenPrimary w f ;;
  ret (st, restrictList, conn).

(** Up to line 138: also [scionAddr] and [sconn]. *)
Definition upToSCION (w : World) (f : Flags)
  : M (option nat_Interface * PrivateKey * option Netlist * UDPConn
       * option snet_Addr * option snet_Conn) :=
  st <- upToPrimary w f ;;
  sc <- setupSCION w f ;;
  ret (st, fst sc, snd sc).

(** Up to line 149: [realaddr] is the address to announce. *)
Definition upToDispatch (w : World) (f : Flags)
  : M (option nat_Interface * PrivateKey * option Netlist * UDPConn
       * option snet_Addr * option snet_Conn * UDPAddr) :=
  st <- upToSCION w f ;;
  realaddr <- natAnnounce w (fst (fst (fst (fst (fst st))))) (snd (fst (fst st))) ;;
  ret (st, realaddr).

(** The rest of [main] after each prefix. *)
Definition fromDispatch (w : World) (f : Flags)
    (st : option nat_Interface * PrivateKey * option Netlist * UDPConn
          * option snet_Addr * option snet_Conn * UDPAddr) : M Empty_set :=
  let '(_, nodeKey, restrictList, conn, scionAddr, sconn, realaddr) := st in
  dispatch w f nodeKey conn scionAddr sconn realaddr restrictList ;;;
  block.

Definition fromSCION (w : World) (f : Flags)
    (st : option nat_Interface * PrivateKey * option Netlist * UDPConn
          * option snet_Addr * option snet_Conn) : M Empty_set :=
  let '(natm, _, _, conn, _, _) := st in
  realaddr <- natAnnounce w natm conn ;;
  fromDispatch w f (st, realaddr).

Definition fromPrimary (w : World) (f : Flags)
    (st : option nat_Interface * PrivateKey * option Netlist * UDPConn)
  : M Empty_set :=
  sc <- setupSCION w f ;;
  fromSCION w f (st, fst sc, snd sc).

Definition fromIdentity (w : World) (f : Flags)
    (st : option nat_Interface * PrivateKey) : M Empty_set :=
  restrictList <- parseRestrict w f ;;
  conn <- listenPrimary w f ;;
  fromPrimary w f (st, restrictList, conn).

(** ** Classes of events *)

Definition isPrimaryBind (ev : Event) : bool :=
  match ev with EvListenUDP _ _ => true | _ => false end.

Definition isAlternateBind (ev : Event) : bool :=
  match ev with EvListenSCION _ _ => true | _ => false end.

(** A datagram socket is bound, primary or alternate. *)
Definition isBind (ev : Event) : bool := isPrimaryBind ev || isAlternateBind ev.

(** The alternate transport: address parsing, stack initialisation, socket. *)
Definition isAlternate (ev : Event) : bool :=
  match ev with
  | EvAddrFromString _ | EvSnetInit _ _ _ | EvListenSCION _ _ => true
  | _ => false
  end.

(** The one-time initialisation of the SCION stack. *)
Definition isStackInit (ev : Event) : bool :=
  match ev with EvSnetInit _ _ _ => true | _ => false end.

(** Address resolution and everything of the transport after it. *)
Definition isTransport (ev : Event) : bool :=
  match ev with
  | EvResolveUDPAddr _ _ | EvListenUDP _ _ => true
  | _ => isAlternate ev
  end.

Definition isNatMap (ev : Event) : bool :=
  match ev with EvNatMap _ _ _ _ _ => true | _ => false end.

Definition isNat (ev : Event) : bool :=
  match ev with EvNatMap _ _ _ _ _ | EvExternalIP _ => true | _ => false end.

Definition isLegacyStart (ev : Event) : bool :=
  match ev with
  | EvDiscoverListenUDP _ _ | EvDiscoverListenUDPSCION _ _ _ => true
  | _ => false
  end.

Definition isTopicStart (ev : Event) : bool :=
  match ev with EvDiscv5ListenUDP _ _ _ _ _ => true | _ => false end.

(** A discovery engine is started. *)
Definition isEngineStart (ev : Event) : bool := isTopicStart ev || isLegacyStart ev.

(** The netlist an engine is started with. *)
Definition restrictOf (ev : Event) : option (option Netlist) :=
  match ev with
  | EvDiscv5ListenUDP _ _ _ _ r => Some r
  | EvDiscoverListenUDP _ cfg | EvDiscoverListenUDPSCION _ _ cfg =>
      Some (NetRestrict cfg)
  | _ => None
  end.

(** The address an engine is told to announce. *)
Definition announceOf (ev : Event) : option UDPAddr :=
  match ev with
  | EvDiscv5ListenUDP _ _ a _ _ => Some a
  | EvDiscoverListenUDP _ cfg | EvDiscoverListenUDPSCION _ _ cfg =>
      Some (AnnounceAddr cfg)
  | _ => None
  end.

(** The key an engine is started with. *)
Definition keyOf (ev : Event) : option PrivateKey :=
  match ev with
  | EvDiscv5ListenUDP k _ _ _ _ => Some k
  | EvDiscoverListenUDP _ cfg | EvDiscoverListenUDPSCION _ _ cfg =>
      Some (cfgPrivateKey cfg)
  | _ => None
  end.

(** The SCION announce address a legacy engine is configured with. *)
Definition scionFieldOf (ev : Event) : option string :=
  match ev with
  | EvDiscoverListenUDP _ cfg | EvDiscoverListenUDPSCION _ _ cfg =>
      Some (AnnounceAddrSCION cfg)
  | _ => None
  end.

(** The call by which [dispatch] starts an engine (lines 153, 166, 172). *)
Definition engineCall (w : World) (f : Flags) (nodeKey : PrivateKey)
    (conn : UDPConn) (scionAddr : option snet_Addr) (sconn : option snet_Conn)
    (realaddr : UDPAddr) (restrictList : option Netlist) : Event :=
  if runv5 f then EvDiscv5ListenUDP nodeKey conn realaddr "" restrictList
  else
    match scionAddr, sconn with
    | Some _, Some sc =>
        EvDiscoverListenUDPSCION conn sc
          (mkCfg w nodeKey realaddr scionAddr restrictList)
    | _, _ =>
        EvDiscoverListenUDP conn (mkCfg w nodeKey realaddr scionAddr restrictList)
    end.

(** No event of the trace is in the class [p]. *)
Definition never (p : Event -> bool) (t : list Event) : Prop :=
  existsb p t = false.

(** ** Scenarios

    Worlds and flags on which the theorems below are exercised. *)

(** [net.IP.To4] and [net.IP.IsLoopback] of the Go library. *)
Definition To4 (ip : IP) : option IP :=
  if (List.length ip =? 4)%nat then Some ip
  else if (List.length ip =? 16)%nat
          && forallb (Z.eqb 0) (firstn 10 ip)
          && (nth 10 ip 0 =? 255) && (nth 11 ip 0 =? 255)
       then Some (skipn 12 ip)
       else None.

Definition IPv6loopback : IP := [0;0;0;0;0;0;0;0;0;0;0;0;0;0;0;1].

Fixpoint IP_eqb (a b : IP) : bool :=
  match a, b with
  | [], [] => true
  | x :: a', y :: b' => (x =? y) && IP_eqb a' b'
  | _, _ => false
  end.

Definition IsLoopback (ip : IP) : bool :=
  match To4 ip with
  | Some ip4 => nth 0 ip4 0 =? 127
  | None => IP_eqb ip IPv6loopback
  end.

Definition key1 : PrivateKey := {| Public := {| X := 7; Y := 11 |}; D := 5 |}.
Definition lo30301 : UDPAddr := {| IP_ := [127;0;0;1]; Port := 30301; Zone := "" |}.
Definition lan30301 : UDPAddr := {| IP_ := [192;168;1;20]; Port := 30301; Zone := "" |}.
Definition extIP1 : IP := [203;0;113;9].
Definition scion1 : snet_Addr :=
  {| IA_ := {| I := 1; A := 280375465083152 |}; Host := [127;0;0;1]; L4Port := 30303 |}.
Definition sconn1 : snet_Conn := {| sfd := 4; sLocal := scion1 |}.
Definition net1 : Netlist := [([10;0;0;0], [255;0;0;0])].

(** A world in which every call succeeds, except as the arguments say:
    the sockets bind to [local]; [nat.Parse] knows the mechanisms of the
    flag's help text; [natExt] is what [ExternalIP] returns; [scionParse],
    [scionInit] and [scionListen] are what the three snet calls return;
    [nilString] is what the [String] method returns on a nil receiver; a
    netlist is parsed only if it is [10.0.0.0/8]. *)
Definition scenario (local : UDPAddr) (natExt : result IP)
    (scionParse : result snet_Addr) (scionInit : option error)
    (scionListen : result snet_Conn) (nilString : string) : World :=
  {| nat_Parse := fun s =>
       if (s =? "none")%string then Ok None
       else if (s =? "any")%string then Ok (Some NatAny)
       else if (s =? "upnp")%string then Ok (Some NatUPnP)
       else if (s =? "pmp")%string then Ok (Some NatPMP)
       else Err "unknown mechanism";
     nat_ExternalIP := fun _ => natExt;
     crypto_GenerateKey := Ok key1;
     crypto_SaveECDSA := fun _ _ => None;
     crypto_LoadECDSA := fun _ => Ok key1;
     crypto_HexToECDSA := fun _ => Ok key1;
     discover_PubkeyID := fun _ => "0b07";
     netutil_ParseNetlist := fun s =>
       if (s =? "10.0.0.0/8")%string then Ok net1 else Err "invalid CIDR address";
     net_ResolveUDPAddr := fun _ _ => Ok local;
     net_ListenUDP := fun _ a => Ok {| fd := 3; LocalAddr := a |};
     IP_IsLoopback := IsLoopback;
     snet_AddrFromString := fun _ => scionParse;
     snet_Init := fun _ _ _ => scionInit;
     snet_ListenSCION := fun _ _ => scionListen;
     snet_Addr_String := fun a =>
       match a with
       | None => nilString
       | Some _ => "1-ff00:0:110,[127.0.0.1]:30303"
       end;
     discv5_ListenUDP := fun _ _ _ _ _ => None;
     discover_ListenUDP := fun _ _ => None;
     discover_ListenUDPSCION := fun _ _ _ => None |}.

(** Every call succeeds; the node is on the loopback interface. *)
Definition calmWorld : World :=
  scenario lo30301 (Ok extIP1) (Ok scion1) None (Ok sconn1) "<nil>".

(** The node is on a LAN address and the gateway answers. *)
Definition lanWorld : World :=
  scenario lan30301 (Ok extIP1) (Ok scion1) None (Ok sconn1) "<nil>".

(** The node is on a LAN address and no gateway answers. *)
Definition noGatewayWorld : World :=
  scenario lan30301 (Err "no UPnP or NAT-PMP router discovered") (Ok scion1)
           None (Ok sconn1) "<nil>".

(** The SCION address does not parse. *)
Definition badScionWorld : World :=
  scenario lo30301 (Ok extIP1) (Err "invalid address: regex match failed")
           None (Ok sconn1) "<nil>".

(** The SCION stack cannot be initialised (no sciond socket), and the socket
    call then refuses to open a socket on the uninitialised stack. *)
Definition noSciondWorld : World :=
  scenario lo30301 (Ok extIP1) (Ok scion1)
           (Some "Unable to connect to SCIOND")
           (Err "SCION network not initialized") "<nil>".

(** Legacy mode, key given in hex, everything else left at its default. *)
Definition legacyFlags : Flags :=
  {| listenAddr := "127.0.0.1:30301"; genKey := ""; writeAddr := false;
     nodeKeyFile := ""; nodeKeyHex := "05"; natdesc := "none";
     netrestrict := ""; runv5 := false; verbosity := 3; vmodule := "";
     scionAddrStr := "" |}.

Definition withScion (s : string) (f : Flags) : Flags :=
  {| listenAddr := listenAddr f; genKey := genKey f; writeAddr := writeAddr f;
     nodeKeyFile := nodeKeyFile f; nodeKeyHex := nodeKeyHex f;
     natdesc := natdesc f; netrestrict := netrestrict f; runv5 := runv5 f;
     verbosity := verbosity f; vmodule := vmodule f; scionAddrStr := s |}.

Definition withV5 (b : bool) (f : Flags) : Flags :=
  {| listenAddr := listenAddr f; genKey := genKey f; writeAddr := writeAddr f;
     nodeKeyFile := nodeKeyFile f; nodeKeyHex := nodeKeyHex f;
     natdesc := natdesc f; netrestrict := netrestrict f; runv5 := b;
     verbosity := verbosity f; vmodule := vmodule f;
     scionAddrStr := scionAddrStr f |}.

Definition withNat (s : string) (f : Flags) : Flags :=
  {| listenAddr := listenAddr f; genKey := genKey f; writeAddr := writeAddr f;
     nodeKeyFile := nodeKeyFile f; nodeKeyHex := nodeKeyHex f;
     natdesc := s; netrestrict := netrestrict f; runv5 := runv5 f;
     verbosity := verbosity f; vmodule := vmodule f;
     scionAddrStr := scionAddrStr f |}.

Definition withGenKey (s : string) (f : Flags) : Flags :=
  {| listenAddr := listenAddr f; genKey := s; writeAddr := writeAddr f;
     nodeKeyFile := nodeKeyFile f; nodeKeyHex := nodeKeyHex f;
     natdesc := natdesc f; netrestrict := netrestrict f; runv5 := runv5 f;
     verbosity := verbosity f; vmodule := vmodule f;
     scionAddrStr := scionAddrStr f |}.

Definition withNetrestrict (s : string) (f : Flags) : Flags :=
  {| listenAddr := listenAddr f; genKey := genKey f; writeAddr := writeAddr f;
     nodeKeyFile := nodeKeyFile f; nodeKeyHex := nodeKeyHex f;
     natdesc := natdesc f; netrestrict := s; runv5 := runv5 f;
     verbosity := verbosity f; vmodule := vmodule f;
     scionAddrStr := scionAddrStr f |}.

Definition withKeys (file hex : string) (f : Flags) : Flags :=
  {| listenAddr := listenAddr f; genKey := genKey f; writeAddr := writeAddr f;
     nodeKeyFile := file; nodeKeyHex := hex;
     natdesc := natdesc f; netrestrict := netrestrict f; runv5 := runv5 f;
     verbosity := verbosity f; vmodule := vmodule f;
     scionAddrStr := scionAddrStr f |}.

(** ** More classes of events, and the order of events *)

Definition isNatParse (ev : Event) : bool :=
  match ev with EvNatParse _ => true | _ => false end.

(** The node key is read, from the file or from the hex string. *)
Definition isKeyLoad (ev : Event) : bool :=
  match ev with EvLoadECDSA _ | EvHexToECDSA _ => true | _ => false end.

(** Everything [main] does once the primary socket is bound: the SCION
    set-up, the NAT calls, the engine. *)
Definition isAfterPrimary (ev : Event) : bool :=
  isAlternate ev || isNat ev || isEngineStart ev.

(** Everything that touches the network: the transport, the NAT calls, the
    engine. *)
Definition isNetwork (ev : Event) : bool :=
  isTransport ev || isNat ev || isEngineStart ev.

(** No [q] event of [t] comes before the first [p] event of [t]. *)
Fixpoint comesFirst (p q : Event -> bool) (t : list Event) : bool :=
  match t with
  | [] => true
  | ev :: t' => p ev || (negb (q ev) && comesFirst p q t')
  end.

(** What the engine-start call of [dispatch] returns (lines 153, 166, 172). *)
Definition engineResult (w : World) (f : Flags) (nodeKey : PrivateKey)
    (conn : UDPConn) (scionAddr : option snet_Addr) (sconn : option snet_Conn)
    (realaddr : UDPAddr) (restrictList : option Netlist) : option error :=
  if runv5 f then discv5_ListenUDP w nodeKey conn realaddr "" restrictList
  else
    match scionAddr, sconn with
    | Some _, Some sc =>
        discover_ListenUDPSCION w conn sc
          (mkCfg w nodeKey realaddr scionAddr restrictList)
    | _, _ =>
        discover_ListenUDP w conn (mkCfg w nodeKey realaddr scionAddr restrictList)
    end.

(** The character [c] occurs in [s]. *)
Fixpoint hasChar (c : ascii) (s : string) : bool :=
  match s with
  | EmptyString => false
  | String x s' => Ascii.eqb x c || hasChar c s'
  end.

(** Why a run can abort: the message of each [utils.Fatalf] of [main], with
    the answer of the world that leads to it. *)
Inductive AbortCause (w : World) (f : Flags) : string -> Prop :=
| AbortNat e :
    nat_Parse w (natdesc f) = Err e ->
    AbortCause w f ("-nat: " ++ e)
| AbortGenerate e :
    genKey f <> "" -> crypto_GenerateKey w = Err e ->
    AbortCause w f ("could not generate key: " ++ e)
| AbortSave k e :
    genKey f <> "" -> crypto_GenerateKey w = Ok k ->
    crypto_SaveECDSA w (genKey f) k = Some e ->
    AbortCause w f e
| AbortNoKey :
    genKey f = "" -> nodeKeyFile f = "" -> nodeKeyHex f = "" ->
    AbortCause w f "Use -nodekey or -nodekeyhex to specify a private key"
| AbortTwoKeys :
    genKey f = "" -> nodeKeyFile f <> "" -> nodeKeyHex f <> "" ->
    AbortCause w f "Options -nodekey and -nodekeyhex are mutually exclusive"
| AbortKeyFile e :
    genKey f = "" -> nodeKeyFile f <> "" ->
    crypto_LoadECDSA w (nodeKeyFile f) = Err e ->
    AbortCause w f ("-nodekey: " ++ e)
| AbortKeyHex e :
    genKey f = "" -> nodeKeyHex f <> "" ->
    crypto_HexToECDSA w (nodeKeyHex f) = Err e ->
    AbortCause w f ("-nodekeyhex: " ++ e)
| AbortNetlist e :
    netrestrict f <> "" -> netutil_ParseNetlist w (netrestrict f) = Err e ->
    AbortCause w f ("-netrestrict: " ++ e)
| AbortResolve e :
    net_ResolveUDPAddr w "udp" (listenAddr f) = Err e ->
    AbortCause w f ("-ResolveUDPAddr: " ++ e)
| AbortListen addr e :
    net_ResolveUDPAddr w "udp" (listenAddr f) = Ok addr ->
    net_ListenUDP w "udp" addr = Err e ->
    AbortCause w f ("-ListenUDP: " ++ e)
| AbortScionAddr e :
    scionAddrStr f <> "" -> snet_AddrFromString w (scionAddrStr f) = Err e ->
    AbortCause w f ("Scion address needs to be specified with -scion: " ++ e)
| AbortScionListen a e :
    scionAddrStr f <> "" -> snet_AddrFromString w (scionAddrStr f) = Ok a ->
    snet_ListenSCION w "udp4" a = Err e ->
    AbortCause w f ("-SCION ListenUDP: " ++ e)
| AbortEngine k conn sa sc ra rl e :
    engineResult w f k conn sa sc ra rl = Some e ->
    AbortCause w f e.

(** More scenarios. *)

(** The listen address does not resolve. *)
Definition noResolveWorld : World :=
  {| nat_Parse := nat_Parse calmWorld;
     nat_ExternalIP := nat_ExternalIP calmWorld;
     crypto_GenerateKey := crypto_GenerateKey calmWorld;
     crypto_SaveECDSA := crypto_SaveECDSA calmWorld;
     crypto_LoadECDSA := crypto_LoadECDSA calmWorld;
     crypto_HexToECDSA := crypto_HexToECDSA calmWorld;
     discover_PubkeyID := discover_PubkeyID calmWorld;
     netutil_ParseNetlist := netutil_ParseNetlist calmWorld;
     net_ResolveUDPAddr := fun _ _ => Err "missing port in address";
     net_ListenUDP := net_ListenUDP calmWorld;
     IP_IsLoopback := IP_IsLoopback calmWorld;
     snet_AddrFromString := snet_AddrFromString calmWorld;
     snet_Init := snet_Init calmWorld;
     snet_ListenSCION := snet_ListenSCION calmWorld;
     snet_Addr_String := snet_Addr_String calmWorld;
     discv5_ListenUDP := discv5_ListenUDP calmWorld;
     discover_ListenUDP := discover_ListenUDP calmWorld;
     discover_ListenUDPSCION := discover_ListenUDPSCION calmWorld |}.

(** The port is taken. *)
Definition portTakenWorld : World :=
  {| nat_Parse := nat_Parse calmWorld;
     nat_ExternalIP := nat_ExternalIP calmWorld;
     crypto_GenerateKey := crypto_GenerateKey calmWorld;
     crypto_SaveECDSA := crypto_SaveECDSA calmWorld;
     crypto_LoadECDSA := crypto_LoadECDSA calmWorld;
     crypto_HexToECDSA := crypto_HexToECDSA calmWorld;
     discover_PubkeyID := discover_PubkeyID calmWorld;
     netutil_ParseNetlist := netutil_ParseNetlist calmWorld;
     net_ResolveUDPAddr := net_ResolveUDPAddr calmWorld;
     net_ListenUDP := fun _ _ => Err "bind: address already in use";
     IP_IsLoopback := IP_IsLoopback calmWorld;
     snet_AddrFromString := snet_AddrFromString calmWorld;
     snet_Init := snet_Init calmWorld;
     snet_ListenSCION := snet_ListenSCION calmWorld;
     snet_Addr_String := snet_Addr_String calmWorld;
     discv5_ListenUDP := discv5_ListenUDP calmWorld;
     discover_ListenUDP := discover_ListenUDP calmWorld;
     discover_ListenUDPSCION := discover_ListenUDPSCION calmWorld |}.

(** The legacy engine does not start. *)
Definition engineFailsWorld : World :=
  {| nat_Parse := nat_Parse calmWorld;
     nat_ExternalIP := nat_ExternalIP calmWorld;
     crypto_GenerateKey := crypto_GenerateKey calmWorld;
     crypto_SaveECDSA := crypto_SaveECDSA calmWorld;
     crypto_LoadECDSA := crypto_LoadECDSA calmWorld;
     crypto_HexToECDSA := crypto_HexToECDSA calmWorld;
     discover_PubkeyID := discover_PubkeyID calmWorld;
     netutil_ParseNetlist := netutil_ParseNetlist calmWorld;
     net_ResolveUDPAddr := net_ResolveUDPAddr calmWorld;
     net_ListenUDP := net_ListenUDP calmWorld;
     IP_IsLoopback := IP_IsLoopback calmWorld;
     snet_AddrFromString := snet_AddrFromString calmWorld;
     snet_Init := snet_Init calmWorld;
     snet_ListenSCION := snet_ListenSCION calmWorld;
     snet_Addr_String := snet_Addr_String calmWorld;
     discv5_ListenUDP := discv5_ListenUDP calmWorld;
     discover_ListenUDP := fun _ _ => Some "table: bad bootstrap node";
     discover_ListenUDPSCION := discover_ListenUDPSCION calmWorld |}.

Definition withWriteAddr (b : bool) (f : Flags) : Flags :=
  {| listenAddr := listenAddr f; genKey := genKey f; writeAddr := b;
     nodeKeyFile := nodeKeyFile f; nodeKeyHex := nodeKeyHex f;
     natdesc := natdesc f; netrestrict := netrestrict f; runv5 := runv5 f;
     verbosity := verbosity f; vmodule := vmodule f;
     scionAddrStr := scionAddrStr f |}.

(** * Properties *)

(** ** The monad *)

Section MonadFacts.
Context {T U : Type}.
Variables (m : M T) (k : T -> M U).

Lemma trace_bind :
  trace (bind m k) =
  trace m ++ match snd m with Ret a => trace (k a) | Done _ => [] end.
Proof.
  destruct m as [t [o | a]]; cbn; [now rewrite app_nil_r |].
  now destruct (k a).
Qed.

(** A class of events absent from [m] and from every continuation is
    absent from [bind m k]. *)
Lemma never_bind (p : Event -> bool) :
  never p (trace m) ->
  (forall a, snd m = Ret a -> never p (trace (k a))) ->
  never p (trace (bind m k)).
Proof.
  unfold never. intros Hm Hk. rewrite trace_bind, existsb_app, Hm.
  destruct (snd m) as [o | a]; cbn; [reflexivity | now apply Hk].
Qed.
End MonadFacts.

Lemma bind_assoc {T U V} (m : M T) (k : T -> M U) (h : U -> M V) :
  bind (bind m k) h = bind m (fun a => bind (k a) h).
Proof.
  destruct m as [t [o | a]]; cbn; [reflexivity |].
  destruct (k a) as [t' [o | b]]; cbn; [reflexivity |].
  destruct (h b). now rewrite app_assoc.
Qed.

Lemma bind_ret_l {T U} (a : T) (k : T -> M U) : bind (ret a) k = k a.
Proof. unfold ret, bind. cbn. now destruct (k a). Qed.

Lemma bind_ext {T U} (m : M T) (k k' : T -> M U) :
  (forall a, k a = k' a) -> bind m k = bind m k'.
Proof. intros E. destruct m as [t [o | a]]; cbn; [reflexivity | now rewrite E]. Qed.

(** A process that has not ended has a value; [main] has none to give. *)
Lemma main_ends (m : M Empty_set) : m = (trace m, Done (outcome m)).
Proof. destruct m as [t [o | []]]. reflexivity. Qed.

(** ** [main] is each prefix followed by the rest *)

Ltac under_binds :=
  repeat (rewrite ?bind_assoc, ?bind_ret_l;
          try (apply bind_ext; intros)).

Lemma main_from_identity (w : World) (f : Flags) :
  main w f = bind (upToIdentity w f) (fromIdentity w f).
Proof.
  unfold main, upToIdentity, fromIdentity, fromPrimary, fromSCION, fromDispatch.
  under_binds. reflexivity.
Qed.

Lemma main_from_primary (w : World) (f : Flags) :
  main w f = bind (upToPrimary w f) (fromPrimary w f).
Proof.
  rewrite main_from_identity. unfold upToPrimary, fromIdentity.
  under_binds. reflexivity.
Qed.

Lemma main_from_SCION (w : World) (f : Flags) :
  main w f = bind (upToSCION w f) (fromSCION w f).
Proof.
  rewrite main_from_primary. unfold upToSCION, fromPrimary.
  under_binds. reflexivity.
Qed.

Lemma main_from_dispatch (w : World) (f : Flags) :
  main w f = bind (upToDispatch w f) (fromDispatch w f).
Proof.
  rewrite main_from_SCION. unfold upToDispatch. rewrite bind_assoc.
  apply bind_ext. intros [[[[[natm k] rl] conn] sa] sc].
  unfold fromSCION. cbn [fst snd]. under_binds. reflexivity.
Qed.

Lemma nonempty_true (s : string) : s <> "" -> nonempty s = true.
Proof. intros H. unfold nonempty. apply String.eqb_neq in H. now rewrite H. Qed.

Lemma nonempty_false (s : string) : s = "" -> nonempty s = false.
Proof. intros ->. reflexivity. Qed.

(** ** Which events a part of [main] can produce *)

(** Case analysis on what the world answers, innermost scrutinee first. *)
Ltac case_world :=
  match goal with
  | |- context [match ?x with _ => _ end] =>
      lazymatch x with
      | context [match _ with _ => _ end] => fail
      | _ => destruct x eqn:?
      end
  end.

Ltac run_block := cbn; repeat (case_world; cbn); try reflexivity; try congruence.

(** [never p] through a chain of binds, block by block. *)
Ltac never_chain :=
  unfold upToDispatch, upToSCION, upToPrimary, upToIdentity;
  repeat (apply never_bind; [ | intros ? _; cbv beta ]);
  unfold never, trace,
    parseNat, loadNodeKey, writeAddress, parseRestrict, listenPrimary,
    setupSCION, natAnnounce, dispatch, nonempty;
  run_block.

Lemma upToIdentity_no_transport (w : World) (f : Flags) :
  never isTransport (trace (upToIdentity w f)).
Proof. never_chain. Qed.

Lemma upToIdentity_no_engine (w : World) (f : Flags) :
  never isEngineStart (trace (upToIdentity w f)).
Proof. never_chain. Qed.

Lemma upToIdentity_no_nat (w : World) (f : Flags) :
  never isNat (trace (upToIdentity w f)).
Proof. never_chain. Qed.

Lemma upToPrimary_no_engine (w : World) (f : Flags) :
  never isEngineStart (trace (upToPrimary w f)).
Proof. never_chain. Qed.

Lemma upToPrimary_no_nat (w : World) (f : Flags) :
  never isNat (trace (upToPrimary w f)).
Proof. never_chain. Qed.

Lemma upToDispatch_no_engine (w : World) (f : Flags) :
  never isEngineStart (trace (upToDispatch w f)).
Proof. never_chain. Qed.

Lemma upToPrimary_no_stack_init (w : World) (f : Flags) :
  never isStackInit (trace (upToPrimary w f)).
Proof. never_chain. Qed.

Lemma bind_ret_inv {T U} (m : M T) (k : T -> M U) t b :
  bind m k = (t, Ret b) ->
  exists t1 a t2, m = (t1, Ret a) /\ k a = (t2, Ret b) /\ t = t1 ++ t2.
Proof.
  destruct m as [t1 [o | a]]; cbn; [discriminate |].
  destruct (k a) as [t2 r] eqn:E. intros [= <- ->].
  now exists t1, a, t2.
Qed.

(** Before a block ends the process by [select {}], it must be the last. *)
Lemma upToSCION_not_block (w : World) (f : Flags) :
  snd (upToSCION w f) <> Done Block.
Proof.
  unfold upToSCION, upToPrimary, upToIdentity,
    parseNat, loadNodeKey, writeAddress, parseRestrict, listenPrimary,
    setupSCION, nonempty.
  run_block.
Qed.

(** Apart from the two exits with status 0, of [-genkey] and of
    [-writeaddress], a prefix that ends the process aborts it. *)
Lemma upToPrimary_ends_fatal (w : World) (f : Flags) t o :
  genKey f = "" -> writeAddr f = false ->
  upToPrimary w f = (t, Done o) -> exists msg, o = Fatal msg.
Proof.
  intros Hg Hw.
  unfold upToPrimary, upToIdentity,
    parseNat, loadNodeKey, writeAddress, parseRestrict, listenPrimary.
  rewrite (nonempty_false _ Hg), Hw.
  cbn; repeat (case_world; cbn); intros [= <- <-]; eauto.
Qed.


(** The primary socket is the last thing [upToPrimary] does, and the only
    socket it binds. *)
Lemma upToPrimary_ends_in_bind (w : World) (f : Flags) pre st :
  upToPrimary w f = (pre, Ret st) ->
  exists pre' addr,
    pre = pre' ++ [EvListenUDP "udp" addr] /\ never isBind pre'.
Proof.
  unfold upToPrimary. intros H.
  apply bind_ret_inv in H as (t1 & a & t2 & H1 & H2 & ->).
  apply bind_ret_inv in H2 as (t3 & rl & t4 & H3 & H4 & ->).
  apply bind_ret_inv in H4 as (t5 & conn & t6 & H5 & [= <- <-] & ->).
  assert (N1 : never isBind t1).
  { change t1 with (trace (t1, Ret a)). rewrite <- H1. never_chain. }
  assert (N3 : never isBind t3).
  { change t3 with (trace (t3, Ret rl)). rewrite <- H3. never_chain. }
  revert H5. unfold listenPrimary. cbn.
  destruct (net_ResolveUDPAddr w "udp" (listenAddr f)) as [addr | e]; cbn;
    [| discriminate].
  destruct (net_ListenUDP w "udp" addr) as [c | e]; cbn; [| discriminate].
  intros [= <- <-].
  exists (t1 ++ t3 ++ [EvResolveUDPAddr "udp" (listenAddr f)]), addr. split.
  - rewrite app_nil_r, <- !app_assoc. reflexivity.
  - unfold never in *. rewrite !existsb_app, N1, N3. reflexivity.
Qed.

(** ** C1: a malformed SCION address *)

Lemma setupSCION_malformed (w : World) (f : Flags) e :
  scionAddrStr f <> "" ->
  snet_AddrFromString w (scionAddrStr f) = Err e ->
  setupSCION w f =
  ([EvAddrFromString (scionAddrStr f)],
   Done (Fatal ("Scion address needs to be specified with -scion: " ++ e))).
Proof.
  intros Hne Herr. unfold setupSCION, nonempty.
  apply String.eqb_neq in Hne. rewrite Hne. cbn. now rewrite Herr.
Qed.

(** C1, as the code has it.  When the SCION address is given and does not
    parse, no run binds the SCION socket, initialises the SCION stack, calls
    the NAT mechanism or starts an engine, and no run blocks: unless it is a
    [-genkey] or [-writeaddress] run, it aborts.  A run that gets as far as
    the primary socket aborts right after [snet.AddrFromString], and by then
    the primary socket, and only that one, has been bound. *)
Theorem scion_malformed_aborts_after_primary_bind (w : World) (f : Flags) e :
  scionAddrStr f <> "" ->
  snet_AddrFromString w (scionAddrStr f) = Err e ->
  never isAlternateBind (trace (main w f)) /\
  never isStackInit (trace (main w f)) /\
  never isNat (trace (main w f)) /\
  never isEngineStart (trace (main w f)) /\
  outcome (main w f) <> Block /\
  (genKey f = "" -> writeAddr f = false ->
     exists msg, outcome (main w f) = Fatal msg) /\
  forall pre st, upToPrimary w f = (pre, Ret st) ->
    main w f =
    (pre ++ [EvAddrFromString (scionAddrStr f)],
     Done (Fatal ("Scion address needs to be specified with -scion: " ++ e)))
    /\ exists pre' addr,
         pre = pre' ++ [EvListenUDP "udp" addr] /\ never isBind pre'.
Proof.
  intros Hne Herr.
  pose proof (setupSCION_malformed w f e Hne Herr) as HS.
  assert (Hfrom : forall st, fromPrimary w f st =
            ([EvAddrFromString (scionAddrStr f)],
             Done (Fatal ("Scion address needs to be specified with -scion: " ++ e)))).
  { intros st. unfold fromPrimary. now rewrite HS. }
  assert (Hnever : forall p, p (EvAddrFromString (scionAddrStr f)) = false ->
            never p (trace (upToPrimary w f)) -> never p (trace (main w f))).
  { intros p Hp Hpre. rewrite main_from_primary. apply never_bind; [exact Hpre |].
    intros st _. rewrite Hfrom. unfold never. cbn. now rewrite Hp. }
  repeat split.
  - apply Hnever; [reflexivity | never_chain].
  - apply Hnever; [reflexivity | apply upToPrimary_no_stack_init].
  - apply Hnever; [reflexivity | apply upToPrimary_no_nat].
  - apply Hnever; [reflexivity | apply upToPrimary_no_engine].
  - rewrite main_from_primary.
    destruct (upToPrimary w f) as [t [o | st]] eqn:E.
    + cbn. intros ->.
      assert (HB : snd (upToSCION w f) = Done Block)
        by (unfold upToSCION; now rewrite E).
      now apply upToSCION_not_block in HB.
    + cbn. rewrite Hfrom. cbn. discriminate.
  - intros Hg Hw. rewrite main_from_primary.
    destruct (upToPrimary w f) as [t [o | st]] eqn:E.
    + cbn. eapply upToPrimary_ends_fatal; eassumption.
    + cbn. rewrite Hfrom. cbn. eauto.
  - rewrite main_from_primary, H. cbn. now rewrite Hfrom.
  - eapply upToPrimary_ends_in_bind; eassumption.
Qed.

Lemma scion_malformed_aborts_after_primary_bind_witness :
  main badScionWorld (withScion "garbage" legacyFlags) =
  ([EvNatParse "none"; EvHexToECDSA "05";
    EvResolveUDPAddr "udp" "127.0.0.1:30301"; EvListenUDP "udp" lo30301]
     ++ [EvAddrFromString "garbage"],
   Done (Fatal ("Scion address needs to be specified with -scion: "
                ++ "invalid address: regex match failed"))).
Proof.
  refine (proj1 (proj2 (proj2 (proj2 (proj2 (proj2 (proj2
    (scion_malformed_aborts_after_primary_bind badScionWorld
       (withScion "garbage" legacyFlags)
       "invalid address: regex match failed" _ _))))))
    _ (None, key1, None, {| fd := 3; LocalAddr := lo30301 |}) _)).
  - discriminate.
  - reflexivity.
  - reflexivity.
Defined.

(** C1 as the specification words it fails: in this run the SCION address is
    malformed and the process aborts, but the primary socket was bound
    first. *)
Lemma scion_malformed_primary_already_bound :
  scionAddrStr (withScion "garbage" legacyFlags) <> "" /\
  snet_AddrFromString badScionWorld
    (scionAddrStr (withScion "garbage" legacyFlags))
  = Err "invalid address: regex match failed" /\
  (exists msg,
     outcome (main badScionWorld (withScion "garbage" legacyFlags)) = Fatal msg) /\
  ~ never isBind (trace (main badScionWorld (withScion "garbage" legacyFlags))).
Proof.
  split; [discriminate |]. split; [reflexivity |]. split.
  - eexists. reflexivity.
  - unfold never. cbn. discriminate.
Qed.

(** ** C3: key generation *)

(** C3, as the code has it.  With [-genkey], [nat.Parse] still comes first
    and a malformed [-nat] aborts the run before any key is generated.  When
    the NAT descriptor parses, the run is the three calls [nat.Parse],
    [crypto.GenerateKey] and [crypto.SaveECDSA] and nothing else: it exits
    with status 0 when the key is generated and saved, and aborts when either
    step fails.  No other flag is read. *)
Theorem genkey_run (w : World) (f : Flags) :
  genKey f <> "" ->
  (forall e, nat_Parse w (natdesc f) = Err e ->
     main w f = ([EvNatParse (natdesc f)], Done (Fatal ("-nat: " ++ e)))) /\
  (forall natm, nat_Parse w (natdesc f) = Ok natm ->
     main w f =
     match crypto_GenerateKey w with
     | Err e =>
         ([EvNatParse (natdesc f); EvGenerateKey],
          Done (Fatal ("could not generate key: " ++ e)))
     | Ok nodeKey =>
         ([EvNatParse (natdesc f); EvGenerateKey; EvSaveECDSA (genKey f) nodeKey],
          Done match crypto_SaveECDSA w (genKey f) nodeKey with
               | Some e => Fatal e
               | None => Exit 0
               end)
     end).
Proof.
  intros Hgen. apply nonempty_true in Hgen. split.
  - intros e He. unfold main, parseNat. cbn. now rewrite He.
  - intros natm Hn. unfold main, parseNat, loadNodeKey. cbn.
    rewrite Hn, Hgen. cbn.
    destruct (crypto_GenerateKey w) as [k | e]; cbn; [| reflexivity].
    now destruct (crypto_SaveECDSA w (genKey f) k).
Qed.

Lemma genkey_run_witness :
  main calmWorld (withGenKey "node.key" defaultFlags) =
  ([EvNatParse "none"; EvGenerateKey; EvSaveECDSA "node.key" key1],
   Done (Exit 0)).
Proof.
  refine (proj2 (genkey_run calmWorld (withGenKey "node.key" defaultFlags) _)
            None _).
  - discriminate.
  - reflexivity.
Defined.

(** C3 as the specification words it fails: the generate-key path is given,
    yet another option, a malformed [-nat], aborts the run, and no key is
    generated or saved. *)
Lemma genkey_with_malformed_nat_aborts :
  genKey (withGenKey "node.key" (withNat "bogus" defaultFlags)) <> "" /\
  main calmWorld (withGenKey "node.key" (withNat "bogus" defaultFlags)) =
  ([EvNatParse "bogus"], Done (Fatal "-nat: unknown mechanism")) /\
  outcome (main calmWorld (withGenKey "node.key" (withNat "bogus" defaultFlags)))
  <> Exit 0.
Proof. split; [discriminate | split; [reflexivity | discriminate]]. Qed.

(** ** What is known when [main] reaches a given line *)

Lemma setupSCION_inv (w : World) (f : Flags) t sa sc :
  setupSCION w f = (t, Ret (sa, sc)) ->
  (scionAddrStr f = "" /\ sa = None /\ sc = None /\ t = []) \/
  (scionAddrStr f <> "" /\
   exists a c,
     snet_AddrFromString w (scionAddrStr f) = Ok a /\
     snet_ListenSCION w "udp4" a = Ok c /\
     sa = Some a /\ sc = Some c /\
     t = [EvAddrFromString (scionAddrStr f);
          EvSnetInit (IA_ a) (sciondAddrOf a) dispatcherAddr;
          EvListenSCION "udp4" a]).
Proof.
  unfold setupSCION, nonempty.
  destruct (scionAddrStr f =? "")%string eqn:E; cbn.
  - apply String.eqb_eq in E. intros [= <- <- <-]. now left.
  - apply String.eqb_neq in E.
    destruct (snet_AddrFromString w (scionAddrStr f)) as [a | e]; cbn;
      [| discriminate].
    destruct (snet_ListenSCION w "udp4" a) as [c | e] eqn:EL; cbn;
      [| discriminate].
    intros [= <- <- <-]. right. split; [exact E |]. now exists a, c.
Qed.

Lemma upToSCION_inv (w : World) (f : Flags) pre natm k rl conn sa sc :
  upToSCION w f = (pre, Ret (natm, k, rl, conn, sa, sc)) ->
  exists pre1 t2,
    upToPrimary w f = (pre1, Ret (natm, k, rl, conn)) /\
    setupSCION w f = (t2, Ret (sa, sc)) /\
    pre = pre1 ++ t2.
Proof.
  unfold upToSCION. intros H.
  apply bind_ret_inv in H as (pre1 & st & t & H1 & H2 & ->).
  apply bind_ret_inv in H2 as (t2 & [sa' sc'] & t3 & H3 & [= <- <- <- <-] & ->).
  exists pre1, t2. rewrite app_nil_r. cbn in *. now rewrite H3.
Qed.

Lemma upToDispatch_inv (w : World) (f : Flags) pre natm k rl conn sa sc ra :
  upToDispatch w f = (pre, Ret (natm, k, rl, conn, sa, sc, ra)) ->
  exists pre1 t2,
    upToSCION w f = (pre1, Ret (natm, k, rl, conn, sa, sc)) /\
    natAnnounce w natm conn = (t2, Ret ra) /\
    pre = pre1 ++ t2.
Proof.
  unfold upToDispatch. intros H.
  apply bind_ret_inv in H as (pre1 & st & t & H1 & H2 & ->).
  apply bind_ret_inv in H2 as (t2 & ra' & t3 & H3 & [= <- -> ->] & ->).
  cbn [fst snd] in H3. exists pre1, t2. now rewrite app_nil_r.
Qed.

(** From line 151 on: one print, one call that starts an engine, and then
    either the abort or [select {}]. *)
Lemma fromDispatch_run (w : World) (f : Flags) natm k rl conn sa sc ra :
  exists banner o,
    fromDispatch w f (natm, k, rl, conn, sa, sc, ra) =
    ([EvPrint banner; engineCall w f k conn sa sc ra rl], Done o).
Proof.
  unfold fromDispatch, dispatch, engineCall.
  destruct (runv5 f); [| destruct sa as [a |], sc as [c |]]; cbn;
    case_world; cbn; eauto.
Qed.

(** An engine is started only from line 151 on. *)
Lemma engine_started_by_dispatch (w : World) (f : Flags) ev :
  In ev (trace (main w f)) -> isEngineStart ev = true ->
  exists pre natm k rl conn sa sc ra,
    upToDispatch w f = (pre, Ret (natm, k, rl, conn, sa, sc, ra)) /\
    ev = engineCall w f k conn sa sc ra rl.
Proof.
  rewrite main_from_dispatch, trace_bind. intros Hin Hev.
  apply in_app_or in Hin as [Hin | Hin].
  - pose proof (upToDispatch_no_engine w f) as N. unfold never in N.
    assert (existsb isEngineStart (trace (upToDispatch w f)) = true)
      by (apply existsb_exists; eauto).
    congruence.
  - destruct (upToDispatch w f) as [pre [o | st]] eqn:E; cbn in Hin; [easy |].
    destruct st as [[[[[[natm k] rl] conn] sa] sc] ra].
    destruct (fromDispatch_run w f natm k rl conn sa sc ra) as (b & o & R).
    rewrite R in Hin. cbn in Hin.
    destruct Hin as [<- | [<- | []]]; [discriminate |].
    now exists pre, natm, k, rl, conn, sa, sc, ra.
Qed.

Lemma never_filter (p : Event -> bool) (t : list Event) :
  never p t -> filter p t = [].
Proof.
  unfold never. induction t as [| ev t IH]; cbn; [reflexivity |].
  destruct (p ev); cbn; [discriminate | exact IH].
Qed.

(** The engines started by a run that reaches line 151. *)
Lemma engines_of_run (w : World) (f : Flags) pre natm k rl conn sa sc ra :
  upToDispatch w f = (pre, Ret (natm, k, rl, conn, sa, sc, ra)) ->
  filter isEngineStart (trace (main w f)) = [engineCall w f k conn sa sc ra rl].
Proof.
  intros H. rewrite main_from_dispatch, trace_bind, H, filter_app. cbn [snd].
  rewrite never_filter
    by (change pre with (trace (pre, @Ret (option nat_Interface * PrivateKey
          * option Netlist * UDPConn * option snet_Addr * option snet_Conn
          * UDPAddr) (natm, k, rl, conn, sa, sc, ra)));
        rewrite <- H; apply upToDispatch_no_engine).
  destruct (fromDispatch_run w f natm k rl conn sa sc ra) as (b & o & ->).
  cbn. unfold engineCall.
  destruct (runv5 f); [| destruct sa, sc]; reflexivity.
Qed.

(** ** C2: the SCION announce address of the legacy configuration *)

(** Whatever the flags, the field is the [String] method applied to
    [scionAddr], which is nil when [-scion] is empty. *)
Lemma legacy_config_scion_field (w : World) (f : Flags) ev s :
  In ev (trace (main w f)) -> scionFieldOf ev = Some s ->
  s = snet_Addr_String w
        (if nonempty (scionAddrStr f)
         then match snet_AddrFromString w (scionAddrStr f) with
              | Ok a => Some a
              | Err _ => None
              end
         else None).
Proof.
  intros Hin Hs.
  assert (Hev : isEngineStart ev = true) by (destruct ev; easy).
  destruct (engine_started_by_dispatch w f ev Hin Hev)
    as (pre & natm & k & rl & conn & sa & sc & ra & H & ->).
  apply upToDispatch_inv in H as (pre1 & t2 & H & _ & _).
  apply upToSCION_inv in H as (pre2 & t3 & _ & H & _).
  assert (Hcfg : s = snet_Addr_String w sa).
  { revert Hs. unfold engineCall.
    destruct (runv5 f); [discriminate |].
    destruct sa, sc; cbn; now intros [= <-]. }
  rewrite Hcfg.
  apply setupSCION_inv in H
    as [(E & -> & _) | (E & a & c & Ha & _ & -> & _)].
  - now rewrite nonempty_false.
  - now rewrite nonempty_true, Ha.
Qed.

(** C2 on the code: legacy mode, no [-scion].  The configuration the engine
    is started with carries what the [String] method makes of a nil address
    (here the text "<nil>"), not the empty string. *)
Theorem legacy_config_without_scion :
  scionAddrStr legacyFlags = "" /\
  runv5 legacyFlags = false /\
  filter isEngineStart (trace (main calmWorld legacyFlags)) =
  [EvDiscoverListenUDP {| fd := 3; LocalAddr := lo30301 |}
     {| cfgPrivateKey := key1;
        AnnounceAddr := lo30301;
        AnnounceAddrSCION := snet_Addr_String calmWorld None;
        NetRestrict := None |}] /\
  snet_Addr_String calmWorld None = "<nil>" /\
  snet_Addr_String calmWorld None <> "".
Proof. repeat split. discriminate. Qed.

(** ** C4: failures while the SCION socket is set up *)

(** With a non-empty [-scion], the outcome of lines 120-138 is decided by
    [snet.AddrFromString] and [snet.ListenSCION]; what [snet.Init] returns
    does not enter into it. *)
Lemma setupSCION_run (w : World) (f : Flags) :
  scionAddrStr f <> "" ->
  setupSCION w f =
  match snet_AddrFromString w (scionAddrStr f) with
  | Err e =>
      ([EvAddrFromString (scionAddrStr f)],
       Done (Fatal ("Scion address needs to be specified with -scion: " ++ e)))
  | Ok a =>
      ([EvAddrFromString (scionAddrStr f);
        EvSnetInit (IA_ a) (sciondAddrOf a) dispatcherAddr;
        EvListenSCION "udp4" a],
       match snet_ListenSCION w "udp4" a with
       | Err e => Done (Fatal ("-SCION ListenUDP: " ++ e))
       | Ok c => Ret (Some a, Some c)
       end)
  end.
Proof.
  intros E. unfold setupSCION. rewrite (nonempty_true _ E). cbn.
  destruct (snet_AddrFromString w (scionAddrStr f)) as [a | e]; cbn;
    [| reflexivity].
  now destruct (snet_ListenSCION w "udp4" a).
Qed.

(** A failure to parse the address or to open the socket aborts the run. *)
Lemma scion_parse_or_listen_failure_aborts (w : World) (f : Flags) pre st :
  scionAddrStr f <> "" ->
  upToPrimary w f = (pre, Ret st) ->
  (forall e, snet_AddrFromString w (scionAddrStr f) = Err e ->
     outcome (main w f) =
     Fatal ("Scion address needs to be specified with -scion: " ++ e)) /\
  (forall a e, snet_AddrFromString w (scionAddrStr f) = Ok a ->
     snet_ListenSCION w "udp4" a = Err e ->
     outcome (main w f) = Fatal ("-SCION ListenUDP: " ++ e)).
Proof.
  intros E H. rewrite main_from_primary, H. unfold fromPrimary.
  rewrite (setupSCION_run w f E). split.
  - intros e ->. reflexivity.
  - intros a e -> ->. reflexivity.
Qed.

Lemma never_not_in (p : Event -> bool) (t : list Event) ev :
  never p t -> p ev = true -> ~ In ev t.
Proof.
  unfold never. intros N Hp Hin.
  assert (existsb p t = true) by (apply existsb_exists; eauto).
  congruence.
Qed.

Lemma upToPrimary_no_alternate (w : World) (f : Flags) :
  never isAlternate (trace (upToPrimary w f)).
Proof. never_chain. Qed.

Lemma fromSCION_no_alternate (w : World) (f : Flags) st :
  never isAlternate (trace (fromSCION w f st)).
Proof.
  destruct st as [[[[[natm k] rl] conn] sa] sc]. unfold fromSCION.
  apply never_bind.
  - unfold never, natAnnounce. destruct natm; run_block.
  - intros ra _.
    destruct (fromDispatch_run w f natm k rl conn sa sc ra) as (b & o & ->).
    unfold never, engineCall. cbn.
    destruct (runv5 f); [| destruct sa, sc]; reflexivity.
Qed.

(** A call of the SCION set-up is made by lines 120-138, in a run that has
    bound the primary socket and has a non-empty [-scion]. *)
Lemma scion_call_inv (w : World) (f : Flags) ev :
  In ev (trace (main w f)) -> isAlternate ev = true ->
  exists pre st,
    upToPrimary w f = (pre, Ret st) /\
    scionAddrStr f <> "" /\
    In ev (trace (setupSCION w f)).
Proof.
  intros Hin Hev. revert Hin. rewrite main_from_primary, trace_bind.
  intros Hin. apply in_app_or in Hin as [Hin | Hin].
  { now apply (never_not_in _ _ _ (upToPrimary_no_alternate w f) Hev) in Hin. }
  destruct (upToPrimary w f) as [pre [o | st]] eqn:E; cbn [snd] in Hin;
    [easy |].
  exists pre, st. split; [reflexivity |].
  unfold fromPrimary in Hin. rewrite trace_bind in Hin.
  apply in_app_or in Hin as [Hin | Hin].
  - split; [| exact Hin]. intros Es.
    assert (S : setupSCION w f = ([], Ret (None, None)))
      by (unfold setupSCION; now rewrite (nonempty_false _ Es)).
    now rewrite S in Hin.
  - exfalso. destruct (snd (setupSCION w f)) as [o | sc']; [easy |].
    now apply (never_not_in _ _ _ (fromSCION_no_alternate w f _) Hev) in Hin.
Qed.

(** A run whose SCION set-up ends the process ends there, with no engine. *)
Lemma main_stops_in_setupSCION (w : World) (f : Flags) pre st t o :
  upToPrimary w f = (pre, Ret st) ->
  setupSCION w f = (t, Done o) ->
  outcome (main w f) = o /\
  (never isEngineStart t -> never isEngineStart (trace (main w f))).
Proof.
  intros H S.
  assert (Hmain : main w f = (pre ++ t, Done o))
    by (rewrite main_from_primary, H; unfold fromPrimary; now rewrite S).
  rewrite Hmain. split; [reflexivity |].
  intros Nt. cbn [trace fst]. unfold never in *. rewrite existsb_app, Nt.
  pose proof (upToPrimary_no_engine w f) as N. rewrite H in N.
  unfold never in N. cbn [trace fst] in N. now rewrite N.
Qed.

(** C4.  [main] does not look at the error of [snet.Init] (line 129); what
    makes a failed initialisation fatal is that [snet.ListenSCION], called
    next, refuses to open a socket on a stack that was not initialised.
    That behaviour of the snet package is the hypothesis.  Under it, in
    every run, whichever step of the SCION set-up is made and fails, the
    parsing of the address, the initialisation of the stack for the two
    socket paths, or the opening of the socket, the process aborts, and no
    engine is started. *)
Theorem scion_setup_failure_aborts (w : World) (f : Flags) :
  (forall a e,
     snet_Init w (IA_ a) (sciondAddrOf a) dispatcherAddr = Some e ->
     exists e', snet_ListenSCION w "udp4" a = Err e') ->
  (forall s e, In (EvAddrFromString s) (trace (main w f)) ->
     snet_AddrFromString w s = Err e ->
     outcome (main w f) =
       Fatal ("Scion address needs to be specified with -scion: " ++ e) /\
     never isEngineStart (trace (main w f))) /\
  (forall ia sciondPath dispatcherPath e,
     In (EvSnetInit ia sciondPath dispatcherPath) (trace (main w f)) ->
     snet_Init w ia sciondPath dispatcherPath = Some e ->
     (exists e', outcome (main w f) = Fatal ("-SCION ListenUDP: " ++ e')) /\
     never isEngineStart (trace (main w f))) /\
  (forall net a e, In (EvListenSCION net a) (trace (main w f)) ->
     snet_ListenSCION w net a = Err e ->
     outcome (main w f) = Fatal ("-SCION ListenUDP: " ++ e) /\
     never isEngineStart (trace (main w f))).
Proof.
  intros Hlink. repeat apply conj.
  - intros s e Hin He.
    destruct (scion_call_inv w f _ Hin eq_refl) as (pre & st & H & Es & Hs).
    pose proof (setupSCION_run w f Es) as R. rewrite R in Hs.
    destruct (snet_AddrFromString w (scionAddrStr f)) as [a | e0] eqn:Ea;
      cbn in Hs.
    + destruct Hs as [[= <-] | [[=] | [[=] | []]]]. congruence.
    + destruct Hs as [[= <-] | []].
      assert (e0 = e) as -> by congruence.
      destruct (main_stops_in_setupSCION w f _ _ _ _ H R) as [Ho Hn].
      split; [exact Ho | now apply Hn].
  - intros ia p1 p2 e Hin He.
    destruct (scion_call_inv w f _ Hin eq_refl) as (pre & st & H & Es & Hs).
    pose proof (setupSCION_run w f Es) as R. rewrite R in Hs.
    destruct (snet_AddrFromString w (scionAddrStr f)) as [a | e0] eqn:Ea;
      cbn in Hs.
    + destruct Hs as [[=] | [[= <- <- <-] | [[=] | []]]].
      destruct (Hlink a e He) as (e' & Hl). rewrite Hl in R.
      destruct (main_stops_in_setupSCION w f _ _ _ _ H R) as [Ho Hn].
      split; [now exists e' | now apply Hn].
    + now destruct Hs as [[=] | []].
  - intros net a' e Hin He.
    destruct (scion_call_inv w f _ Hin eq_refl) as (pre & st & H & Es & Hs).
    pose proof (setupSCION_run w f Es) as R. rewrite R in Hs.
    destruct (snet_AddrFromString w (scionAddrStr f)) as [a | e0] eqn:Ea;
      cbn in Hs.
    + destruct Hs as [[=] | [[=] | [[= <- <-] | []]]].
      rewrite He in R.
      destruct (main_stops_in_setupSCION w f _ _ _ _ H R) as [Ho Hn].
      split; [exact Ho | now apply Hn].
    + now destruct Hs as [[=] | []].
Qed.

Lemma scion_setup_failure_aborts_witness :
  (exists e',
     outcome (main noSciondWorld
                (withScion "1-ff00:0:110,[127.0.0.1]:30303" legacyFlags))
     = Fatal ("-SCION ListenUDP: " ++ e')) /\
  never isEngineStart
    (trace (main noSciondWorld
              (withScion "1-ff00:0:110,[127.0.0.1]:30303" legacyFlags))).
Proof.
  refine (proj1 (proj2
    (scion_setup_failure_aborts noSciondWorld
       (withScion "1-ff00:0:110,[127.0.0.1]:30303" legacyFlags) _))
    (IA_ scion1) (sciondAddrOf scion1) dispatcherAddr
    "Unable to connect to SCIOND" _ eq_refl).
  - intros a e _. now exists "SCION network not initialized".
  - cbn. do 5 right. now left.
Defined.

(** ** C6: exactly one engine *)

(** C6.  A run that reaches line 151 starts exactly one engine.  With [-v5]
    it is the topic engine, on the primary socket, with the key, the announce
    address, an empty network id and the netlist.  Without [-v5] it is the
    legacy engine: on both sockets when [-scion] was given (the SCION socket
    being the one [snet.ListenSCION] returned), on the primary socket alone
    when it was not. *)
Theorem one_engine_by_mode (w : World) (f : Flags) pre natm k rl conn sa sc ra :
  upToDispatch w f = (pre, Ret (natm, k, rl, conn, sa, sc, ra)) ->
  (runv5 f = true ->
     filter isEngineStart (trace (main w f)) =
     [EvDiscv5ListenUDP k conn ra "" rl]) /\
  (runv5 f = false -> scionAddrStr f <> "" ->
     exists a c,
       snet_AddrFromString w (scionAddrStr f) = Ok a /\
       snet_ListenSCION w "udp4" a = Ok c /\
       filter isEngineStart (trace (main w f)) =
       [EvDiscoverListenUDPSCION conn c (mkCfg w k ra (Some a) rl)]) /\
  (runv5 f = false -> scionAddrStr f = "" ->
     filter isEngineStart (trace (main w f)) =
     [EvDiscoverListenUDP conn (mkCfg w k ra None rl)]).
Proof.
  intros H. rewrite (engines_of_run _ _ _ _ _ _ _ _ _ _ H). unfold engineCall.
  apply upToDispatch_inv in H as (pre1 & t2 & H & _ & _).
  apply upToSCION_inv in H as (pre2 & t3 & _ & H & _).
  apply setupSCION_inv in H
    as [(E & -> & -> & _) | (E & a & c & Ha & Hc & -> & -> & _)].
  - split; [| split].
    + now intros ->.
    + intros _ Hne. now destruct Hne.
    + now intros ->.
  - split; [| split].
    + now intros ->.
    + intros -> _. now exists a, c.
    + intros _ Hempty. now destruct E.
Qed.

Lemma one_engine_by_mode_witness :
  filter isEngineStart
    (trace (main calmWorld
              (withScion "1-ff00:0:110,[127.0.0.1]:30303" legacyFlags))) =
  [EvDiscoverListenUDPSCION {| fd := 3; LocalAddr := lo30301 |} sconn1
     (mkCfg calmWorld key1 lo30301 (Some scion1) None)].
Proof.
  destruct (proj1 (proj2 (one_engine_by_mode calmWorld
              (withScion "1-ff00:0:110,[127.0.0.1]:30303" legacyFlags)
              [EvNatParse "none"; EvHexToECDSA "05";
               EvResolveUDPAddr "udp" "127.0.0.1:30301";
               EvListenUDP "udp" lo30301;
               EvAddrFromString "1-ff00:0:110,[127.0.0.1]:30303";
               EvSnetInit (IA_ scion1) (sciondAddrOf scion1) dispatcherAddr;
               EvListenSCION "udp4" scion1]
              None key1 None {| fd := 3; LocalAddr := lo30301 |}
              (Some scion1) (Some sconn1) lo30301 eq_refl))
            eq_refl ltac:(discriminate))
    as (a & c & Ha & Hc & Hrun).
  injection Ha as <-. injection Hc as <-. exact Hrun.
Defined.

(** ** C10: the topic engine and the SCION socket *)

Lemma natAnnounce_returns (w : World) natm conn :
  exists t ra, natAnnounce w natm conn = (t, Ret ra).
Proof.
  unfold natAnnounce. destruct natm as [m |]; cbn; [| unfold ret; eauto].
  repeat (case_world; cbn); eauto.
Qed.

(** C10.  With [-v5] and a non-empty [-scion]: whatever engine a run starts
    is the topic engine, on a datagram socket and with the empty network id,
    so neither the SCION socket nor the SCION address reaches an engine.  And
    a run that has bound the primary socket still goes through the SCION
    set-up: it parses the address; if that succeeds it initialises the stack
    and opens the SCION socket; if that succeeds too, it starts the topic
    engine on the primary socket. *)
Theorem topic_mode_leaves_scion_socket_unused (w : World) (f : Flags) :
  runv5 f = true -> scionAddrStr f <> "" ->
  (forall ev, In ev (trace (main w f)) -> isEngineStart ev = true ->
     exists k conn ra rl, ev = EvDiscv5ListenUDP k conn ra "" rl) /\
  (forall pre natm k rl conn,
     upToPrimary w f = (pre, Ret (natm, k, rl, conn)) ->
     In (EvAddrFromString (scionAddrStr f)) (trace (main w f)) /\
     forall a, snet_AddrFromString w (scionAddrStr f) = Ok a ->
       In (EvSnetInit (IA_ a) (sciondAddrOf a) dispatcherAddr) (trace (main w f)) /\
       In (EvListenSCION "udp4" a) (trace (main w f)) /\
       forall c, snet_ListenSCION w "udp4" a = Ok c ->
         exists ra,
           filter isEngineStart (trace (main w f)) =
           [EvDiscv5ListenUDP k conn ra "" rl]).
Proof.
  intros Hv5 Hne. split.
  - intros ev Hin Hev.
    destruct (engine_started_by_dispatch w f ev Hin Hev)
      as (pre & natm & k & rl & conn & sa & sc & ra & _ & ->).
    unfold engineCall. rewrite Hv5. now exists k, conn, ra, rl.
  - intros pre natm k rl conn H.
    assert (Htr : trace (main w f) =
              pre ++ trace (fromPrimary w f (natm, k, rl, conn)))
      by (now rewrite main_from_primary, trace_bind, H).
    assert (Hfrom : trace (fromPrimary w f (natm, k, rl, conn)) =
              trace (setupSCION w f) ++
              match snd (setupSCION w f) with
              | Ret sc' => trace (fromSCION w f (natm, k, rl, conn, fst sc', snd sc'))
              | Done _ => []
              end)
      by (unfold fromPrimary; now rewrite trace_bind).
    rewrite Htr, Hfrom, (setupSCION_run w f Hne). split.
    + apply in_or_app. right. apply in_or_app. left.
      destruct (snet_AddrFromString w (scionAddrStr f)); now left.
    + intros a Ha. rewrite Ha. cbn [trace fst snd]. split; [| split].
      * apply in_or_app. right. apply in_or_app. left. cbn. tauto.
      * apply in_or_app. right. apply in_or_app. left. cbn. tauto.
      * intros c Hc.
        destruct (natAnnounce_returns w natm conn) as (t & ra & Hra).
        exists ra.
        assert (HD : upToDispatch w f =
                  ((pre ++ [EvAddrFromString (scionAddrStr f);
                            EvSnetInit (IA_ a) (sciondAddrOf a) dispatcherAddr;
                            EvListenSCION "udp4" a]) ++ t,
                   Ret (natm, k, rl, conn, Some a, Some c, ra))).
        { unfold upToDispatch, upToSCION.
          rewrite H. cbn [bind].
          rewrite (setupSCION_run w f Hne), Ha, Hc. cbn. rewrite Hra.
          cbn. now rewrite app_nil_r. }
        pose proof (engines_of_run _ _ _ _ _ _ _ _ _ _ HD) as R.
        rewrite Htr, Hfrom, (setupSCION_run w f Hne), Ha in R.
        revert R. unfold engineCall. rewrite Hv5.
        cbn [trace fst snd]. auto.
Qed.

Lemma topic_mode_leaves_scion_socket_unused_witness :
  exists ra,
    filter isEngineStart
      (trace (main lanWorld
                (withV5 true
                   (withNat "any"
                      (withScion "1-ff00:0:110,[127.0.0.1]:30303" legacyFlags))))) =
    [EvDiscv5ListenUDP key1 {| fd := 3; LocalAddr := lan30301 |} ra "" None].
Proof.
  refine (proj2 (proj2 (proj2
    (proj2 (topic_mode_leaves_scion_socket_unused lanWorld
              (withV5 true
                 (withNat "any"
                    (withScion "1-ff00:0:110,[127.0.0.1]:30303" legacyFlags)))
              eq_refl _)
       [EvNatParse "any"; EvHexToECDSA "05";
        EvResolveUDPAddr "udp" "127.0.0.1:30301"; EvListenUDP "udp" lan30301]
       (Some NatAny) key1 None {| fd := 3; LocalAddr := lan30301 |} eq_refl)
    scion1 eq_refl)) sconn1 eq_refl).
  discriminate.
Defined.

(** ** C8: the announce address *)

Lemma natAnnounce_run (w : World) m conn :
  natAnnounce w (Some m) conn =
  ((if IP_IsLoopback w (IP_ (LocalAddr conn)) then []
    else [EvNatMap m "udp" (Port (LocalAddr conn)) (Port (LocalAddr conn))
            "ethereum discovery"])
   ++ [EvExternalIP m],
   Ret match nat_ExternalIP w m with
       | Ok ext => {| IP_ := ext; Port := Port (LocalAddr conn); Zone := "" |}
       | Err _ => LocalAddr conn
       end).
Proof.
  unfold natAnnounce.
  destruct (IP_IsLoopback w (IP_ (LocalAddr conn))); cbn;
    now destruct (nat_ExternalIP w m).
Qed.

(** C8.  A run that reaches line 140 with a NAT mechanism goes on to line
    151 whatever [ExternalIP] answers, and starts one engine; the address
    that engine announces is the external IP with the port of the local
    socket address when [ExternalIP] succeeds, and the local socket address
    itself when it fails. *)
Theorem announce_address (w : World) (f : Flags) pre m k rl conn sa sc :
  upToSCION w f = (pre, Ret (Some m, k, rl, conn, sa, sc)) ->
  exists t ra ev,
    upToDispatch w f = (pre ++ t, Ret (Some m, k, rl, conn, sa, sc, ra)) /\
    filter isEngineStart (trace (main w f)) = [ev] /\
    announceOf ev = Some ra /\
    (forall ext, nat_ExternalIP w m = Ok ext ->
       ra = {| IP_ := ext; Port := Port (LocalAddr conn); Zone := "" |}) /\
    (forall e, nat_ExternalIP w m = Err e -> ra = LocalAddr conn).
Proof.
  intros H.
  pose proof (natAnnounce_run w m conn) as R.
  set (t := (if IP_IsLoopback w (IP_ (LocalAddr conn)) then []
             else [EvNatMap m "udp" (Port (LocalAddr conn))
                     (Port (LocalAddr conn)) "ethereum discovery"])
            ++ [EvExternalIP m]) in R.
  set (ra := match nat_ExternalIP w m with
             | Ok ext => {| IP_ := ext; Port := Port (LocalAddr conn); Zone := "" |}
             | Err _ => LocalAddr conn
             end) in R.
  assert (HD : upToDispatch w f =
                 (pre ++ t, Ret (Some m, k, rl, conn, sa, sc, ra))).
  { unfold upToDispatch. rewrite H. cbn [bind fst snd]. rewrite R. cbn.
    now rewrite app_nil_r. }
  exists t, ra, (engineCall w f k conn sa sc ra rl).
  split; [exact HD |]. split; [now apply engines_of_run with (pre := pre ++ t) (natm := Some m) |].
  split.
  - unfold engineCall. destruct (runv5 f); [| destruct sa, sc]; reflexivity.
  - subst ra. split.
    + now intros ext ->.
    + now intros e ->.
Qed.

Lemma announce_address_witness :
  exists t ra ev,
    upToDispatch noGatewayWorld (withNat "any" legacyFlags) =
    ([EvNatParse "any"; EvHexToECDSA "05";
      EvResolveUDPAddr "udp" "127.0.0.1:30301"; EvListenUDP "udp" lan30301]
       ++ t,
     Ret (Some NatAny, key1, None, {| fd := 3; LocalAddr := lan30301 |},
          None, None, ra)) /\
    filter isEngineStart (trace (main noGatewayWorld (withNat "any" legacyFlags)))
    = [ev] /\
    announceOf ev = Some ra /\
    (forall ext, nat_ExternalIP noGatewayWorld NatAny = Ok ext ->
       ra = {| IP_ := ext;
               Port := Port (LocalAddr {| fd := 3; LocalAddr := lan30301 |});
               Zone := "" |}) /\
    (forall e, nat_ExternalIP noGatewayWorld NatAny = Err e ->
       ra = LocalAddr {| fd := 3; LocalAddr := lan30301 |}).
Proof.
  apply (announce_address noGatewayWorld (withNat "any" legacyFlags)).
  reflexivity.
Defined.

(** ** C7: no port mapping on a loopback address *)

Lemma upToPrimary_conn (w : World) (f : Flags) pre natm k rl conn :
  upToPrimary w f = (pre, Ret (natm, k, rl, conn)) ->
  exists addr,
    net_ResolveUDPAddr w "udp" (listenAddr f) = Ok addr /\
    net_ListenUDP w "udp" addr = Ok conn.
Proof.
  unfold upToPrimary. intros H.
  apply bind_ret_inv in H as (t1 & a & t2 & _ & H2 & _).
  apply bind_ret_inv in H2 as (t3 & rl' & t4 & _ & H4 & _).
  apply bind_ret_inv in H4 as (t5 & conn' & t6 & H5 & [= _ _ _ <-] & _).
  revert H5. unfold listenPrimary. cbn.
  destruct (net_ResolveUDPAddr w "udp" (listenAddr f)) as [addr | e]; cbn;
    [| discriminate].
  destruct (net_ListenUDP w "udp" addr) as [c | e] eqn:E; cbn; [| discriminate].
  intros [= _ <-]. now exists addr.
Qed.

Lemma upToSCION_no_nat_map (w : World) (f : Flags) :
  never isNatMap (trace (upToSCION w f)).
Proof. never_chain. Qed.

(** C7.  When the address the primary socket is bound to is a loopback
    address, no run starts [nat.Map]; and a run that reaches line 140 with a
    NAT mechanism still asks it for the external IP. *)
Theorem loopback_no_port_mapping (w : World) (f : Flags) :
  (forall addr conn,
     net_ResolveUDPAddr w "udp" (listenAddr f) = Ok addr ->
     net_ListenUDP w "udp" addr = Ok conn ->
     IP_IsLoopback w (IP_ (LocalAddr conn)) = true) ->
  never isNatMap (trace (main w f)) /\
  (forall pre m k rl conn sa sc,
     upToSCION w f = (pre, Ret (Some m, k, rl, conn, sa, sc)) ->
     In (EvExternalIP m) (trace (main w f))).
Proof.
  intros Hlo. split.
  - rewrite main_from_SCION. apply never_bind; [apply upToSCION_no_nat_map |].
    intros [[[[[natm k] rl] conn] sa] sc] Hst.
    destruct (upToSCION w f) as [pre r] eqn:E. cbn in Hst. subst r.
    apply upToSCION_inv in E as (pre1 & t2 & E & _ & _).
    apply upToPrimary_conn in E as (addr & Hr & Hl).
    specialize (Hlo addr conn Hr Hl).
    unfold fromSCION. apply never_bind.
    + destruct natm as [m |]; [| reflexivity].
      rewrite natAnnounce_run, Hlo. reflexivity.
    + intros ra _.
      destruct (fromDispatch_run w f natm k rl conn sa sc ra) as (b & o & ->).
      unfold never, engineCall. cbn.
      destruct (runv5 f); [| destruct sa, sc]; reflexivity.
  - intros pre m k rl conn sa sc H.
    rewrite main_from_SCION, trace_bind, H. cbn [snd].
    apply in_or_app. right. unfold fromSCION. rewrite trace_bind.
    apply in_or_app. left. rewrite natAnnounce_run. cbn [trace fst].
    apply in_or_app. right. now left.
Qed.

Lemma loopback_no_port_mapping_witness :
  never isNatMap (trace (main calmWorld (withNat "any" legacyFlags))) /\
  In (EvExternalIP NatAny) (trace (main calmWorld (withNat "any" legacyFlags))).
Proof.
  destruct (loopback_no_port_mapping calmWorld (withNat "any" legacyFlags))
    as [Hmap Hext].
  - intros addr conn [= <-] [= <-]. reflexivity.
  - split; [exact Hmap |].
    apply (Hext [EvNatParse "any"; EvHexToECDSA "05";
                 EvResolveUDPAddr "udp" "127.0.0.1:30301";
                 EvListenUDP "udp" lo30301]
             NatAny key1 None {| fd := 3; LocalAddr := lo30301 |} None None).
    reflexivity.
Defined.

(** ** C5: where the node key comes from *)

Lemma loadNodeKey_no_transport (w : World) (f : Flags) :
  never isTransport (trace (loadNodeKey w f)).
Proof. never_chain. Qed.

(** When the [switch] aborts, so does [main], before the transport. *)
Lemma loadNodeKey_abort (w : World) (f : Flags) t msg :
  loadNodeKey w f = (t, Done (Fatal msg)) ->
  (exists msg', outcome (main w f) = Fatal msg') /\
  never isTransport (trace (main w f)).
Proof.
  intros H. split.
  - unfold main, parseNat. cbn.
    destruct (nat_Parse w (natdesc f)); cbn; [rewrite H |]; cbn; eauto.
  - pose proof (loadNodeKey_no_transport w f) as N. rewrite H in N.
    unfold main. apply never_bind; [never_chain |].
    intros natm _. rewrite H. exact N.
Qed.

Lemma upToIdentity_key (w : World) (f : Flags) pre natm k :
  upToIdentity w f = (pre, Ret (natm, k)) ->
  exists t, loadNodeKey w f = (t, Ret k).
Proof.
  unfold upToIdentity. intros H.
  apply bind_ret_inv in H as (t1 & natm' & t2 & _ & H & _).
  apply bind_ret_inv in H as (t3 & k' & t4 & H3 & H & _).
  apply bind_ret_inv in H as (t5 & u & t6 & _ & [= _ _ <-] & _).
  now exists t3.
Qed.

Lemma upToPrimary_inv (w : World) (f : Flags) pre natm k rl conn :
  upToPrimary w f = (pre, Ret (natm, k, rl, conn)) ->
  exists pre1 t2 t3,
    upToIdentity w f = (pre1, Ret (natm, k)) /\
    parseRestrict w f = (t2, Ret rl) /\
    listenPrimary w f = (t3, Ret conn) /\
    pre = pre1 ++ t2 ++ t3.
Proof.
  unfold upToPrimary. intros H.
  apply bind_ret_inv in H as (pre1 & st & t & H1 & H & ->).
  apply bind_ret_inv in H as (t2 & rl' & t' & H2 & H & ->).
  apply bind_ret_inv in H as (t3 & conn' & t4 & H3 & [= <- -> -> ->] & ->).
  exists pre1, t2, t3. now rewrite app_nil_r.
Qed.

(** The key an engine is started with is the one the [switch] returned. *)
Lemma engine_key (w : World) (f : Flags) ev k' :
  In ev (trace (main w f)) -> keyOf ev = Some k' ->
  exists t, loadNodeKey w f = (t, Ret k').
Proof.
  intros Hin Hk.
  assert (Hev : isEngineStart ev = true) by (destruct ev; easy).
  destruct (engine_started_by_dispatch w f ev Hin Hev)
    as (pre & natm & k & rl & conn & sa & sc & ra & H & ->).
  assert (k' = k) as ->.
  { revert Hk. unfold engineCall.
    destruct (runv5 f); [| destruct sa, sc]; cbn; now intros [= <-]. }
  apply upToDispatch_inv in H as (pre1 & t2 & H & _ & _).
  apply upToSCION_inv in H as (pre2 & t3 & H & _ & _).
  apply upToPrimary_inv in H as (pre3 & t4 & t5 & H & _).
  eapply upToIdentity_key; eassumption.
Qed.

(** C5.  Without [-genkey]: with neither [-nodekey] nor [-nodekeyhex] the
    run aborts and the transport is never reached; with both it aborts as
    well; with exactly one, the key is read from that source and from no
    other, the [switch] aborts only if reading it fails, and the key an
    engine is started with is the key that was read. *)
Theorem identity_provisioning (w : World) (f : Flags) :
  genKey f = "" ->
  (nodeKeyFile f = "" -> nodeKeyHex f = "" ->
     loadNodeKey w f =
       ([], Done (Fatal "Use -nodekey or -nodekeyhex to specify a private key")) /\
     (exists msg, outcome (main w f) = Fatal msg) /\
     never isTransport (trace (main w f))) /\
  (nodeKeyFile f <> "" -> nodeKeyHex f <> "" ->
     loadNodeKey w f =
       ([], Done (Fatal "Options -nodekey and -nodekeyhex are mutually exclusive")) /\
     (exists msg, outcome (main w f) = Fatal msg) /\
     never isTransport (trace (main w f))) /\
  (nodeKeyFile f <> "" -> nodeKeyHex f = "" ->
     loadNodeKey w f =
       ([EvLoadECDSA (nodeKeyFile f)],
        match crypto_LoadECDSA w (nodeKeyFile f) with
        | Ok nodeKey => Ret nodeKey
        | Err e => Done (Fatal ("-nodekey: " ++ e))
        end) /\
     forall ev k, In ev (trace (main w f)) -> keyOf ev = Some k ->
       crypto_LoadECDSA w (nodeKeyFile f) = Ok k) /\
  (nodeKeyFile f = "" -> nodeKeyHex f <> "" ->
     loadNodeKey w f =
       ([EvHexToECDSA (nodeKeyHex f)],
        match crypto_HexToECDSA w (nodeKeyHex f) with
        | Ok nodeKey => Ret nodeKey
        | Err e => Done (Fatal ("-nodekeyhex: " ++ e))
        end) /\
     forall ev k, In ev (trace (main w f)) -> keyOf ev = Some k ->
       crypto_HexToECDSA w (nodeKeyHex f) = Ok k).
Proof.
  intros Hgen.
  assert (Hload : forall bf bh, nonempty (nodeKeyFile f) = bf ->
            nonempty (nodeKeyHex f) = bh ->
            loadNodeKey w f =
            if negb bf && negb bh then
              Fatalf "Use -nodekey or -nodekeyhex to specify a private key"
            else if bf && bh then
              Fatalf "Options -nodekey and -nodekeyhex are mutually exclusive"
            else if bf then
              ([EvLoadECDSA (nodeKeyFile f)],
               match crypto_LoadECDSA w (nodeKeyFile f) with
               | Ok nodeKey => Ret nodeKey
               | Err e => Done (Fatal ("-nodekey: " ++ e))
               end)
            else
              ([EvHexToECDSA (nodeKeyHex f)],
               match crypto_HexToECDSA w (nodeKeyHex f) with
               | Ok nodeKey => Ret nodeKey
               | Err e => Done (Fatal ("-nodekeyhex: " ++ e))
               end)).
  { intros bf bh <- <-. unfold loadNodeKey.
    rewrite (nonempty_false _ Hgen).
    destruct (nonempty (nodeKeyFile f)), (nonempty (nodeKeyHex f)); cbn;
      try reflexivity.
    - now destruct (crypto_LoadECDSA w (nodeKeyFile f)).
    - now destruct (crypto_HexToECDSA w (nodeKeyHex f)). }
  repeat apply conj.
  - intros Hf Hh.
    pose proof (Hload false false (nonempty_false _ Hf) (nonempty_false _ Hh)) as L.
    cbn in L. split; [exact L | exact (loadNodeKey_abort w f _ _ L)].
  - intros Hf Hh.
    pose proof (Hload true true (nonempty_true _ Hf) (nonempty_true _ Hh)) as L.
    cbn in L. split; [exact L | exact (loadNodeKey_abort w f _ _ L)].
  - intros Hf Hh.
    pose proof (Hload true false (nonempty_true _ Hf) (nonempty_false _ Hh)) as L.
    cbn in L. split; [exact L |].
    intros ev k Hin Hk. destruct (engine_key w f ev k Hin Hk) as (t & Hkey).
    rewrite L in Hkey.
    destruct (crypto_LoadECDSA w (nodeKeyFile f)); now inversion Hkey.
  - intros Hf Hh.
    pose proof (Hload false true (nonempty_false _ Hf) (nonempty_true _ Hh)) as L.
    cbn in L. split; [exact L |].
    intros ev k Hin Hk. destruct (engine_key w f ev k Hin Hk) as (t & Hkey).
    rewrite L in Hkey.
    destruct (crypto_HexToECDSA w (nodeKeyHex f)); now inversion Hkey.
Qed.

Example neither_key_source_aborts :
  main calmWorld (withKeys "" "" legacyFlags) =
  ([EvNatParse "none"],
   Done (Fatal "Use -nodekey or -nodekeyhex to specify a private key")).
Proof. reflexivity. Qed.

Example both_key_sources_abort :
  main calmWorld (withKeys "node.key" "05" legacyFlags) =
  ([EvNatParse "none"],
   Done (Fatal "Options -nodekey and -nodekeyhex are mutually exclusive")).
Proof. reflexivity. Qed.

Lemma identity_provisioning_witness :
  loadNodeKey calmWorld legacyFlags = ([EvHexToECDSA "05"], Ret key1) /\
  forall ev k, In ev (trace (main calmWorld legacyFlags)) ->
    keyOf ev = Some k -> crypto_HexToECDSA calmWorld "05" = Ok k.
Proof.
  refine (proj2 (proj2 (proj2
    (identity_provisioning calmWorld legacyFlags eq_refl))) eq_refl _).
  discriminate.
Defined.

(** ** C9: the netlist *)

Lemma upToIdentity_not_block (w : World) (f : Flags) :
  snd (upToIdentity w f) <> Done Block.
Proof.
  unfold upToIdentity, parseNat, loadNodeKey, writeAddress, nonempty.
  run_block.
Qed.

(** The netlist an engine is started with is the one line 100-106 made. *)
Lemma engine_netlist (w : World) (f : Flags) ev r :
  In ev (trace (main w f)) -> restrictOf ev = Some r ->
  exists t, parseRestrict w f = (t, Ret r).
Proof.
  intros Hin Hr.
  assert (Hev : isEngineStart ev = true) by (destruct ev; easy).
  destruct (engine_started_by_dispatch w f ev Hin Hev)
    as (pre & natm & k & rl & conn & sa & sc & ra & H & ->).
  assert (r = rl) as ->.
  { revert Hr. unfold engineCall.
    destruct (runv5 f); [| destruct sa, sc]; cbn; now intros [= <-]. }
  apply upToDispatch_inv in H as (pre1 & t2 & H & _ & _).
  apply upToSCION_inv in H as (pre2 & t3 & H & _ & _).
  apply upToPrimary_inv in H as (pre3 & t4 & t5 & _ & H & _).
  now exists t4.
Qed.




(** * Further properties of [main] *)

(** ** The NAT descriptor is looked at first *)

(** X1.  Whatever the flags, the first call of a run is [nat.Parse], and when it
    fails it is the only call: the run aborts with the message of lines
    68-70, and no key is generated, read or saved. *)
Theorem nat_descriptor_first (w : World) (f : Flags) :
  (exists rest, trace (main w f) = EvNatParse (natdesc f) :: rest) /\
  (forall e, nat_Parse w (natdesc f) = Err e ->
     main w f = ([EvNatParse (natdesc f)], Done (Fatal ("-nat: " ++ e)))).
Proof.
  split.
  - unfold main. rewrite trace_bind. unfold parseNat. cbn.
    destruct (nat_Parse w (natdesc f)); cbn; eauto.
  - intros e He. unfold main, parseNat. cbn. now rewrite He.
Qed.

Lemma nat_descriptor_first_witness :
  main calmWorld (withNat "bogus" legacyFlags) =
  ([EvNatParse "bogus"], Done (Fatal ("-nat: " ++ "unknown mechanism"))).
Proof.
  exact (proj2 (nat_descriptor_first calmWorld (withNat "bogus" legacyFlags))
           "unknown mechanism" eq_refl).
Defined.

(** ** [-writeaddress] *)

(** X2.  With [-writeaddress] and no [-genkey], no run touches the transport,
    the NAT mechanism or an engine, and no run blocks.  When the NAT
    descriptor parses and the key is read, the run prints the public-key id
    of that key on a line and exits with status 0. *)
Theorem writeaddress_run (w : World) (f : Flags) :
  genKey f = "" -> writeAddr f = true ->
  never isTransport (trace (main w f)) /\
  never isNat (trace (main w f)) /\
  never isEngineStart (trace (main w f)) /\
  outcome (main w f) <> Block /\
  (forall natm t k,
     nat_Parse w (natdesc f) = Ok natm ->
     loadNodeKey w f = (t, Ret k) ->
     main w f =
     (EvNatParse (natdesc f) :: t ++
        [EvPrint (discover_PubkeyID w (Public k) ++ "
")],
      Done (Exit 0))).
Proof.
  intros Hg Hw.
  assert (Hid : exists t o, upToIdentity w f = (t, Done o)).
  { unfold upToIdentity, parseNat, loadNodeKey, writeAddress.
    rewrite (nonempty_false _ Hg), Hw.
    cbn; repeat (case_world; cbn); eauto. }
  destruct Hid as (t0 & o0 & Hid).
  assert (Hmain : main w f = (t0, Done o0))
    by (now rewrite main_from_identity, Hid).
  repeat apply conj.
  - rewrite Hmain. change t0 with (trace (t0, @Done (option nat_Interface * PrivateKey) o0)).
    rewrite <- Hid. apply upToIdentity_no_transport.
  - rewrite Hmain. change t0 with (trace (t0, @Done (option nat_Interface * PrivateKey) o0)).
    rewrite <- Hid. apply upToIdentity_no_nat.
  - rewrite Hmain. change t0 with (trace (t0, @Done (option nat_Interface * PrivateKey) o0)).
    rewrite <- Hid. apply upToIdentity_no_engine.
  - rewrite Hmain. cbn. intros ->.
    pose proof (upToIdentity_not_block w f) as N. rewrite Hid in N. now apply N.
  - intros natm t k Hn Hk. unfold main, parseNat, writeAddress. cbn.
    rewrite Hn. cbn. rewrite Hk, Hw. cbn. reflexivity.
Qed.

Lemma writeaddress_run_witness :
  main calmWorld (withWriteAddr true legacyFlags) =
  (EvNatParse "none" :: [EvHexToECDSA "05"] ++ [EvPrint ("0b07" ++ "
")],
   Done (Exit 0)).
Proof.
  refine (proj2 (proj2 (proj2 (proj2
    (writeaddress_run calmWorld (withWriteAddr true legacyFlags)
       eq_refl eq_refl)))) None [EvHexToECDSA "05"] key1 eq_refl eq_refl).
Defined.

(** ** The primary socket *)

Lemma upToIdentity_no_bind (w : World) (f : Flags) :
  never isBind (trace (upToIdentity w f)).
Proof. never_chain. Qed.

Lemma parseRestrict_quiet (w : World) (f : Flags) (p : Event -> bool) :
  (forall s, p (EvParseNetlist s) = false) ->
  never p (trace (parseRestrict w f)).
Proof.
  intros Hp. unfold never, parseRestrict.
  destruct (nonempty (netrestrict f)); cbn; [| reflexivity].
  destruct (netutil_ParseNetlist w (netrestrict f)); cbn; now rewrite Hp.
Qed.

(** What lines 108-118 do, by what the two calls return. *)
Lemma listenPrimary_run (w : World) (f : Flags) :
  listenPrimary w f =
  match net_ResolveUDPAddr w "udp" (listenAddr f) with
  | Err e =>
      ([EvResolveUDPAddr "udp" (listenAddr f)],
       Done (Fatal ("-ResolveUDPAddr: " ++ e)))
  | Ok addr =>
      ([EvResolveUDPAddr "udp" (listenAddr f); EvListenUDP "udp" addr],
       match net_ListenUDP w "udp" addr with
       | Err e => Done (Fatal ("-ListenUDP: " ++ e))
       | Ok conn => Ret conn
       end)
  end.
Proof.
  unfold listenPrimary. cbn.
  destruct (net_ResolveUDPAddr w "udp" (listenAddr f)) as [addr | e]; cbn;
    [| reflexivity].
  now destruct (net_ListenUDP w "udp" addr).
Qed.

(** X3.  When the listen address does not resolve, no run binds a socket, sets
    up SCION, calls the NAT mechanism or starts an engine; when the address
    resolves and the bind fails, the same holds of everything after the
    bind.  A run that gets as far as line 108 aborts with the message of the
    failing call, right after that call. *)
Theorem primary_socket_failure (w : World) (f : Flags) :
  (forall e, net_ResolveUDPAddr w "udp" (listenAddr f) = Err e ->
     never isBind (trace (main w f)) /\
     never isAfterPrimary (trace (main w f)) /\
     forall pre st t rl,
       upToIdentity w f = (pre, Ret st) -> parseRestrict w f = (t, Ret rl) ->
       main w f =
       (pre ++ t ++ [EvResolveUDPAddr "udp" (listenAddr f)],
        Done (Fatal ("-ResolveUDPAddr: " ++ e)))) /\
  (forall addr e, net_ResolveUDPAddr w "udp" (listenAddr f) = Ok addr ->
     net_ListenUDP w "udp" addr = Err e ->
     never isAfterPrimary (trace (main w f)) /\
     forall pre st t rl,
       upToIdentity w f = (pre, Ret st) -> parseRestrict w f = (t, Ret rl) ->
       main w f =
       (pre ++ t ++ [EvResolveUDPAddr "udp" (listenAddr f);
                     EvListenUDP "udp" addr],
        Done (Fatal ("-ListenUDP: " ++ e)))).
Proof.
  assert (Hnever : forall p t o,
            listenPrimary w f = (t, Done o) ->
            never p (trace (upToIdentity w f)) ->
            (forall s, p (EvParseNetlist s) = false) ->
            never p t -> never p (trace (main w f))).
  { intros p t o HL Hid Hp Ht. rewrite main_from_identity.
    apply never_bind; [exact Hid |]. intros st _. unfold fromIdentity.
    apply never_bind; [now apply parseRestrict_quiet |]. intros rl _.
    now rewrite HL. }
  assert (Hmain : forall t o pre st t' rl,
            listenPrimary w f = (t, Done o) ->
            upToIdentity w f = (pre, Ret st) ->
            parseRestrict w f = (t', Ret rl) ->
            main w f = (pre ++ t' ++ t, Done o)).
  { intros t o pre st t' rl HL Hid HR.
    rewrite main_from_identity, Hid. unfold fromIdentity.
    rewrite HR, HL. reflexivity. }
  split.
  - intros e He.
    pose proof (listenPrimary_run w f) as HL. rewrite He in HL.
    repeat apply conj.
    + eapply Hnever; [exact HL | apply upToIdentity_no_bind | reflexivity
                      | reflexivity].
    + eapply Hnever; [exact HL | never_chain | reflexivity | reflexivity].
    + intros pre st t rl Hid HR. eapply Hmain; eassumption.
  - intros addr e Ha He.
    pose proof (listenPrimary_run w f) as HL. rewrite Ha, He in HL.
    split.
    + eapply Hnever; [exact HL | never_chain | reflexivity | reflexivity].
    + intros pre st t rl Hid HR. eapply Hmain; eassumption.
Qed.

Lemma primary_socket_failure_witness :
  main portTakenWorld legacyFlags =
  ([EvNatParse "none"; EvHexToECDSA "05"] ++ [] ++
     [EvResolveUDPAddr "udp" "127.0.0.1:30301"; EvListenUDP "udp" lo30301],
   Done (Fatal ("-ListenUDP: " ++ "bind: address already in use"))).
Proof.
  refine (proj2 (proj2 (primary_socket_failure portTakenWorld legacyFlags)
                   lo30301 "bind: address already in use" eq_refl eq_refl)
            [EvNatParse "none"; EvHexToECDSA "05"] (None, key1) [] None
            eq_refl eq_refl).
Defined.

(** ** SCION is all or nothing *)

(** X4.  With an empty [-scion] no run parses a SCION address, initialises the
    SCION stack or opens a SCION socket.  And at line 151 the SCION address
    and the SCION socket are both nil, which happens exactly when [-scion]
    is empty, or both set, the socket being the one [snet.ListenSCION]
    returned for the address [snet.AddrFromString] returned. *)
Theorem scion_all_or_nothing (w : World) (f : Flags) :
  (scionAddrStr f = "" -> never isAlternate (trace (main w f))) /\
  (forall pre natm k rl conn sa sc ra,
     upToDispatch w f = (pre, Ret (natm, k, rl, conn, sa, sc, ra)) ->
     (scionAddrStr f = "" /\ sa = None /\ sc = None) \/
     (scionAddrStr f <> "" /\
      exists a c,
        snet_AddrFromString w (scionAddrStr f) = Ok a /\
        snet_ListenSCION w "udp4" a = Ok c /\
        sa = Some a /\ sc = Some c)).
Proof.
  split.
  - intros E. rewrite main_from_primary.
    apply never_bind; [apply upToPrimary_no_alternate |].
    intros st _. unfold fromPrimary.
    assert (S : setupSCION w f = ([], Ret (None, None)))
      by (unfold setupSCION; now rewrite (nonempty_false _ E)).
    rewrite S. apply never_bind; [reflexivity |].
    intros sc' _. apply fromSCION_no_alternate.
  - intros pre natm k rl conn sa sc ra H.
    apply upToDispatch_inv in H as (pre1 & t2 & H & _ & _).
    apply upToSCION_inv in H as (pre2 & t3 & _ & H & _).
    apply setupSCION_inv in H
      as [(E & -> & -> & _) | (E & a & c & Ha & Hc & -> & -> & _)].
    + now left.
    + right. split; [exact E |]. now exists a, c.
Qed.

Lemma scion_all_or_nothing_witness :
  never isAlternate (trace (main lanWorld (withNat "any" legacyFlags))).
Proof.
  exact (proj1 (scion_all_or_nothing lanWorld (withNat "any" legacyFlags))
           eq_refl).
Defined.

(** ** How a run ends *)

(** Lines 151-178 by what the engine-start call returns. *)
Lemma fromDispatch_outcome (w : World) (f : Flags) natm k rl conn sa sc ra :
  exists banner,
    fromDispatch w f (natm, k, rl, conn, sa, sc, ra) =
    ([EvPrint banner; engineCall w f k conn sa sc ra rl],
     Done match engineResult w f k conn sa sc ra rl with
          | Some e => Fatal e
          | None => Block
          end).
Proof.
  unfold fromDispatch, dispatch, engineCall, engineResult.
  destruct (runv5 f); [| destruct sa as [a |], sc as [c |]]; cbn;
    case_world; cbn; eauto.
Qed.

Lemma upToDispatch_not_block (w : World) (f : Flags) :
  snd (upToDispatch w f) <> Done Block.
Proof.
  unfold upToDispatch.
  destruct (upToSCION w f) as [t [o | st]] eqn:E.
  - cbn. intros [= ->].
    pose proof (upToSCION_not_block w f) as N. rewrite E in N. now apply N.
  - cbn [bind].
    destruct (natAnnounce_returns w (fst (fst (fst (fst (fst st)))))
                (snd (fst (fst st)))) as (t' & ra & ->).
    cbn. discriminate.
Qed.

(** X5.  A run that reaches line 151 ends with the engine-start call: nothing is
    called after it.  If the engine starts, the process blocks in
    [select {}]; if it does not, the process aborts with the engine's
    error as the message. *)
Theorem engine_start_decides (w : World) (f : Flags)
    pre natm k rl conn sa sc ra :
  upToDispatch w f = (pre, Ret (natm, k, rl, conn, sa, sc, ra)) ->
  exists banner,
    trace (main w f) =
      pre ++ [EvPrint banner; engineCall w f k conn sa sc ra rl] /\
    (engineResult w f k conn sa sc ra rl = None ->
       outcome (main w f) = Block) /\
    (forall e, engineResult w f k conn sa sc ra rl = Some e ->
       outcome (main w f) = Fatal e).
Proof.
  intros H.
  destruct (fromDispatch_outcome w f natm k rl conn sa sc ra) as (b & R).
  exists b. rewrite main_from_dispatch, H. cbn [bind]. rewrite R.
  split; [reflexivity |]. split.
  - now intros ->.
  - now intros e ->.
Qed.

Lemma engine_start_decides_witness :
  outcome (main engineFailsWorld legacyFlags) = Fatal "table: bad bootstrap node".
Proof.
  destruct (engine_start_decides engineFailsWorld legacyFlags
              [EvNatParse "none"; EvHexToECDSA "05";
               EvResolveUDPAddr "udp" "127.0.0.1:30301";
               EvListenUDP "udp" lo30301]
              None key1 None {| fd := 3; LocalAddr := lo30301 |}
              None None lo30301 eq_refl) as (b & _ & _ & Hfail).
  exact (Hfail "table: bad bootstrap node" eq_refl).
Defined.

(** X6.  No run starts more than one engine, and a run blocks only after it has
    started one: reaching [select {}] means that a socket was bound and an
    engine start call returned without error. *)
Theorem blocks_only_with_engine (w : World) (f : Flags) :
  (List.length (filter isEngineStart (trace (main w f))) <= 1)%nat /\
  (outcome (main w f) = Block ->
   exists pre natm k rl conn sa sc ra,
     upToDispatch w f = (pre, Ret (natm, k, rl, conn, sa, sc, ra)) /\
     engineResult w f k conn sa sc ra rl = None /\
     filter isEngineStart (trace (main w f)) =
     [engineCall w f k conn sa sc ra rl] /\
     filter isPrimaryBind (trace (main w f)) <> []).
Proof.
  destruct (upToDispatch w f) as [pre [o | st]] eqn:E.
  - assert (Hmain : main w f = (pre, Done o))
      by (now rewrite main_from_dispatch, E).
    split.
    + rewrite Hmain. cbn [trace fst]. rewrite never_filter; [cbn; lia |].
      change pre with (trace (pre, @Done (option nat_Interface * PrivateKey
          * option Netlist * UDPConn * option snet_Addr * option snet_Conn
          * UDPAddr) o)).
      rewrite <- E. apply upToDispatch_no_engine.
    + rewrite Hmain. cbn. intros ->.
      pose proof (upToDispatch_not_block w f) as N. rewrite E in N.
      now destruct N.
  - destruct st as [[[[[[natm k] rl] conn] sa] sc] ra].
    pose proof (engines_of_run _ _ _ _ _ _ _ _ _ _ E) as R.
    split; [rewrite R; cbn; lia |].
    intros HB. exists pre, natm, k, rl, conn, sa, sc, ra.
    split; [reflexivity |].
    destruct (fromDispatch_outcome w f natm k rl conn sa sc ra) as (b & Rf).
    assert (Hmain : main w f =
              (pre ++ [EvPrint b; engineCall w f k conn sa sc ra rl],
               Done match engineResult w f k conn sa sc ra rl with
                    | Some e => Fatal e
                    | None => Block
                    end))
      by (rewrite main_from_dispatch, E; cbn [bind]; now rewrite Rf).
    repeat apply conj.
    + rewrite Hmain in HB. cbn in HB.
      now destruct (engineResult w f k conn sa sc ra rl).
    + exact R.
    + rewrite Hmain. cbn [trace fst].
      apply upToDispatch_inv in E as (pre1 & t2 & E & _ & ->).
      apply upToSCION_inv in E as (pre2 & t3 & E & _ & ->).
      apply upToPrimary_ends_in_bind in E as (pre' & addr & -> & _).
      rewrite !filter_app. cbn.
      destruct (filter isPrimaryBind pre'); discriminate.
Qed.

Lemma blocks_only_with_engine_witness :
  exists pre natm k rl conn sa sc ra,
    upToDispatch calmWorld legacyFlags =
      (pre, Ret (natm, k, rl, conn, sa, sc, ra)) /\
    engineResult calmWorld legacyFlags k conn sa sc ra rl = None /\
    filter isEngineStart (trace (main calmWorld legacyFlags)) =
    [engineCall calmWorld legacyFlags k conn sa sc ra rl] /\
    filter isPrimaryBind (trace (main calmWorld legacyFlags)) <> [].
Proof.
  exact (proj2 (blocks_only_with_engine calmWorld legacyFlags) eq_refl).
Defined.

Lemma upToSCION_exit (w : World) (f : Flags) t s :
  upToSCION w f = (t, Done (Exit s)) ->
  s = 0 /\ (genKey f <> "" \/ writeAddr f = true).
Proof.
  unfold upToSCION, upToPrimary, upToIdentity,
    parseNat, loadNodeKey, writeAddress, parseRestrict, listenPrimary,
    setupSCION, nonempty.
  destruct (genKey f =? "")%string eqn:Eg;
    [apply String.eqb_eq in Eg | apply String.eqb_neq in Eg];
    destruct (writeAddr f) eqn:Ew;
    cbn; repeat (case_world; cbn); intros [= <- <-]; auto.
Qed.

(** X7.  The process ends with a status other than the abort's only by status 0,
    only in a [-genkey] or [-writeaddress] run, and then without having
    resolved an address, bound a socket, called the NAT mechanism or started
    an engine. *)
Theorem exit_is_zero_and_early (w : World) (f : Flags) s :
  outcome (main w f) = Exit s ->
  s = 0 /\
  (genKey f <> "" \/ writeAddr f = true) /\
  never isTransport (trace (main w f)) /\
  never isNat (trace (main w f)) /\
  never isEngineStart (trace (main w f)).
Proof.
  intros H.
  destruct (upToIdentity w f) as [t [o | st]] eqn:E.
  - assert (Hmain : main w f = (t, Done o))
      by (now rewrite main_from_identity, E).
    rewrite Hmain in H. cbn in H. subst o.
    assert (HS : upToSCION w f = (t, Done (Exit s)))
      by (unfold upToSCION, upToPrimary; now rewrite E).
    assert (Hev : forall p, never p (trace (upToIdentity w f)) ->
              never p (trace (main w f)))
      by (intros p Hp; now rewrite Hmain, E in *).
    apply upToSCION_exit in HS as (-> & Hfl).
    split; [reflexivity |]. split; [exact Hfl |].
    repeat apply conj; apply Hev;
      [ apply upToIdentity_no_transport | apply upToIdentity_no_nat
      | apply upToIdentity_no_engine ].
  - exfalso. revert H. rewrite main_from_identity, E. cbn [bind].
    unfold fromIdentity.
    destruct (parseRestrict w f) as [t1 [o1 | rl]] eqn:E1.
    + cbn. intros ->.
      revert E1. unfold parseRestrict. cbn. repeat (case_world; cbn);
        discriminate.
    + cbn [bind]. rewrite listenPrimary_run.
      destruct (net_ResolveUDPAddr w "udp" (listenAddr f)) as [addr | e];
        [| discriminate].
      destruct (net_ListenUDP w "udp" addr) as [conn | e]; [| discriminate].
      cbn [bind]. unfold fromPrimary.
      destruct (setupSCION w f) as [t2 [o2 | sc']] eqn:E2.
      * cbn. intros ->. revert E2. unfold setupSCION. cbn.
        repeat (case_world; cbn); discriminate.
      * cbn [bind]. destruct st as [natm k]. unfold fromSCION.
        destruct (natAnnounce_returns w natm conn) as (t3 & ra & ->).
        cbn [bind].
        destruct (fromDispatch_outcome w f natm k rl conn (fst sc') (snd sc') ra)
          as (b & ->).
        cbn. destruct (engineResult w f k conn (fst sc') (snd sc') ra rl);
          discriminate.
Qed.

Lemma exit_is_zero_and_early_witness :
  0 = 0 /\
  (genKey (withGenKey "node.key" defaultFlags) <> "" \/
   writeAddr (withGenKey "node.key" defaultFlags) = true) /\
  never isTransport (trace (main calmWorld (withGenKey "node.key" defaultFlags))) /\
  never isNat (trace (main calmWorld (withGenKey "node.key" defaultFlags))) /\
  never isEngineStart (trace (main calmWorld (withGenKey "node.key" defaultFlags))).
Proof.
  exact (exit_is_zero_and_early calmWorld (withGenKey "node.key" defaultFlags)
           0 eq_refl).
Defined.

(** ** The NAT mechanism *)

Lemma upToIdentity_natm (w : World) (f : Flags) pre natm k :
  upToIdentity w f = (pre, Ret (natm, k)) ->
  nat_Parse w (natdesc f) = Ok natm.
Proof.
  unfold upToIdentity. intros H.
  apply bind_ret_inv in H as (t1 & natm' & t2 & H1 & H & _).
  apply bind_ret_inv in H as (t3 & k' & t4 & _ & H & _).
  apply bind_ret_inv in H as (t5 & u & t6 & _ & [= _ <- _] & _).
  revert H1. unfold parseNat. cbn.
  destruct (nat_Parse w (natdesc f)); cbn; [| discriminate].
  now intros [= _ ->].
Qed.

(** What is known of the variables at line 140. *)
Lemma upToSCION_facts (w : World) (f : Flags) pre natm k rl conn sa sc :
  upToSCION w f = (pre, Ret (natm, k, rl, conn, sa, sc)) ->
  nat_Parse w (natdesc f) = Ok natm /\
  exists addr,
    net_ResolveUDPAddr w "udp" (listenAddr f) = Ok addr /\
    net_ListenUDP w "udp" addr = Ok conn.
Proof.
  intros H. apply upToSCION_inv in H as (pre1 & t2 & H & _ & _).
  split.
  - apply upToPrimary_inv in H as (pre2 & t3 & t4 & H & _).
    eapply upToIdentity_natm; eassumption.
  - eapply upToPrimary_conn; eassumption.
Qed.

(** The events of lines 140-178, NAT calls first. *)
Lemma fromSCION_trace (w : World) (f : Flags) natm k rl conn sa sc :
  exists ra banner,
    natAnnounce w natm conn = (trace (natAnnounce w natm conn), Ret ra) /\
    trace (fromSCION w f (natm, k, rl, conn, sa, sc)) =
    trace (natAnnounce w natm conn)
      ++ [EvPrint banner; engineCall w f k conn sa sc ra rl].
Proof.
  destruct (natAnnounce_returns w natm conn) as (t & ra & Hra).
  destruct (fromDispatch_run w f natm k rl conn sa sc ra) as (b & o & R).
  exists ra, b. rewrite Hra. split; [reflexivity |].
  unfold fromSCION. rewrite Hra. cbn [bind]. now rewrite R.
Qed.

(** X8.  Whenever a run starts the port-mapping goroutine, a NAT mechanism was
    parsed from [-nat], the primary socket is bound to an address that is
    not a loopback address, and the mapping asked for is UDP, from the port
    of that address to the same port, under the name "ethereum discovery".
    A run that reaches line 140 starts the goroutine at most once. *)
Theorem port_mapping_request (w : World) (f : Flags) :
  (forall ev, In ev (trace (main w f)) -> isNatMap ev = true ->
     exists m addr conn,
       nat_Parse w (natdesc f) = Ok (Some m) /\
       net_ResolveUDPAddr w "udp" (listenAddr f) = Ok addr /\
       net_ListenUDP w "udp" addr = Ok conn /\
       IP_IsLoopback w (IP_ (LocalAddr conn)) = false /\
       ev = EvNatMap m "udp" (Port (LocalAddr conn)) (Port (LocalAddr conn))
              "ethereum discovery") /\
  (forall pre m k rl conn sa sc,
     upToSCION w f = (pre, Ret (Some m, k, rl, conn, sa, sc)) ->
     filter isNatMap (trace (main w f)) =
     if IP_IsLoopback w (IP_ (LocalAddr conn)) then []
     else [EvNatMap m "udp" (Port (LocalAddr conn)) (Port (LocalAddr conn))
             "ethereum discovery"]).
Proof.
  split.
  - intros ev Hin Hev. revert Hin. rewrite main_from_SCION, trace_bind.
    intros Hin. apply in_app_or in Hin as [Hin | Hin].
    { pose proof (upToSCION_no_nat_map w f) as N. unfold never in N.
      assert (existsb isNatMap (trace (upToSCION w f)) = true)
        by (apply existsb_exists; eauto).
      congruence. }
    destruct (upToSCION w f) as [pre [o | st]] eqn:E; cbn in Hin; [easy |].
    destruct st as [[[[[natm k] rl] conn] sa] sc].
    destruct (upToSCION_facts _ _ _ _ _ _ _ _ _ E) as (Hn & addr & Hr & Hl).
    destruct (fromSCION_trace w f natm k rl conn sa sc) as (ra & b & _ & R).
    rewrite R in Hin. apply in_app_or in Hin as [Hin | Hin].
    + destruct natm as [m |]; [| now cbn in Hin].
      rewrite natAnnounce_run in Hin. cbn [trace fst] in Hin.
      destruct (IP_IsLoopback w (IP_ (LocalAddr conn))) eqn:Elo.
      * cbn in Hin. destruct Hin as [<- | []]. discriminate.
      * cbn in Hin. destruct Hin as [<- | [<- | []]]; [| discriminate].
        now exists m, addr, conn.
    + cbn in Hin. destruct Hin as [<- | [<- | []]]; [discriminate |].
      revert Hev. unfold engineCall.
      destruct (runv5 f); [| destruct sa, sc]; discriminate.
  - intros pre m k rl conn sa sc H.
    rewrite main_from_SCION, trace_bind, H, filter_app. cbn [snd].
    rewrite never_filter
      by (change pre with (trace (pre, @Ret (option nat_Interface * PrivateKey
            * option Netlist * UDPConn * option snet_Addr * option snet_Conn)
            (Some m, k, rl, conn, sa, sc)));
          rewrite <- H; apply upToSCION_no_nat_map).
    destruct (fromSCION_trace w f (Some m) k rl conn sa sc) as (ra & b & _ & ->).
    rewrite natAnnounce_run. cbn [trace fst]. rewrite !filter_app.
    assert (E : filter isNatMap [EvPrint b; engineCall w f k conn sa sc ra rl] = []).
    { unfold engineCall. cbn.
      destruct (runv5 f); [| destruct sa, sc]; reflexivity. }
    rewrite E.
    destruct (IP_IsLoopback w (IP_ (LocalAddr conn))); reflexivity.
Qed.

Lemma port_mapping_request_witness :
  filter isNatMap (trace (main lanWorld (withNat "any" legacyFlags))) =
  [EvNatMap NatAny "udp" 30301 30301 "ethereum discovery"].
Proof.
  exact (proj2 (port_mapping_request lanWorld (withNat "any" legacyFlags))
           [EvNatParse "any"; EvHexToECDSA "05";
            EvResolveUDPAddr "udp" "127.0.0.1:30301";
            EvListenUDP "udp" lan30301]
           NatAny key1 None {| fd := 3; LocalAddr := lan30301 |} None None
           eq_refl).
Defined.

(** X9.  When [nat.Parse] returns no mechanism (as for "none"), no run calls the
    NAT mechanism in any way, and the address an engine is told to announce
    is the address the primary socket is bound to. *)
Theorem no_nat_announces_local_address (w : World) (f : Flags) :
  nat_Parse w (natdesc f) = Ok None ->
  never isNat (trace (main w f)) /\
  forall ev a, In ev (trace (main w f)) -> announceOf ev = Some a ->
    exists addr conn,
      net_ResolveUDPAddr w "udp" (listenAddr f) = Ok addr /\
      net_ListenUDP w "udp" addr = Ok conn /\
      a = LocalAddr conn.
Proof.
  intros Hn. split.
  - rewrite main_from_SCION. apply never_bind; [never_chain |].
    intros [[[[[natm k] rl] conn] sa] sc] Hst.
    destruct (upToSCION w f) as [pre r] eqn:E. cbn in Hst. subst r.
    destruct (upToSCION_facts _ _ _ _ _ _ _ _ _ E) as (Hn' & _).
    rewrite Hn in Hn'. injection Hn' as <-.
    destruct (fromSCION_trace w f None k rl conn sa sc) as (ra & b & _ & ->).
    unfold never, engineCall. cbn.
    destruct (runv5 f); [| destruct sa, sc]; reflexivity.
  - intros ev a Hin Ha.
    assert (Hev : isEngineStart ev = true) by (destruct ev; easy).
    destruct (engine_started_by_dispatch w f ev Hin Hev)
      as (pre & natm & k & rl & conn & sa & sc & ra & H & ->).
    assert (a = ra) as ->.
    { revert Ha. unfold engineCall.
      destruct (runv5 f); [| destruct sa, sc]; cbn; now intros [= <-]. }
    apply upToDispatch_inv in H as (pre1 & t2 & H & Hra & _).
    destruct (upToSCION_facts _ _ _ _ _ _ _ _ _ H) as (Hn' & addr & Hr & Hl).
    rewrite Hn in Hn'. injection Hn' as <-.
    cbn in Hra. injection Hra as _ <-.
    now exists addr, conn.
Qed.

Lemma no_nat_announces_local_address_witness :
  never isNat (trace (main calmWorld legacyFlags)) /\
  exists addr conn,
    net_ResolveUDPAddr calmWorld "udp" (listenAddr legacyFlags) = Ok addr /\
    net_ListenUDP calmWorld "udp" addr = Ok conn /\
    lo30301 = LocalAddr conn.
Proof.
  destruct (no_nat_announces_local_address calmWorld legacyFlags eq_refl)
    as [Hnat Hann].
  split; [exact Hnat |].
  apply (Hann (EvDiscoverListenUDP {| fd := 3; LocalAddr := lo30301 |}
                 (mkCfg calmWorld key1 lo30301 None None)) lo30301);
    [| reflexivity].
  cbn. do 5 right. now left.
Defined.

(** ** A netlist that parses *)

(** X10.  With a [-netrestrict] that parses, every engine a run starts is given
    the parsed netlist, in the call for the topic engine and in the
    configuration for the legacy engine. *)
Theorem netlist_reaches_engine (w : World) (f : Flags) l :
  netrestrict f <> "" ->
  netutil_ParseNetlist w (netrestrict f) = Ok l ->
  forall ev r, In ev (trace (main w f)) -> restrictOf ev = Some r ->
    r = Some l.
Proof.
  intros E Hl ev r Hin Hr.
  destruct (engine_netlist w f ev r Hin Hr) as (t & H).
  revert H. unfold parseRestrict. rewrite (nonempty_true _ E). cbn.
  rewrite Hl. cbn. now intros [= _ <-].
Qed.

Lemma netlist_reaches_engine_witness :
  In (EvDiscoverListenUDP {| fd := 3; LocalAddr := lo30301 |}
        (mkCfg calmWorld key1 lo30301 None (Some net1)))
     (trace (main calmWorld (withNetrestrict "10.0.0.0/8" legacyFlags))) /\
  Some net1 = Some net1.
Proof.
  assert (Hin : In (EvDiscoverListenUDP {| fd := 3; LocalAddr := lo30301 |}
                      (mkCfg calmWorld key1 lo30301 None (Some net1)))
                   (trace (main calmWorld
                             (withNetrestrict "10.0.0.0/8" legacyFlags)))).
  { cbn. do 6 right. now left. }
  split; [exact Hin |].
  refine (netlist_reaches_engine calmWorld
            (withNetrestrict "10.0.0.0/8" legacyFlags) net1 _ eq_refl
            _ (Some net1) Hin eq_refl).
  discriminate.
Defined.

(** ** The order of the calls *)

Lemma comesFirst_app (p q : Event -> bool) (t1 t2 : list Event) :
  never q t1 ->
  comesFirst p q (t1 ++ t2) = existsb p t1 || comesFirst p q t2.
Proof.
  unfold never. induction t1 as [| ev t1 IH]; cbn; [reflexivity |].
  intros H. apply orb_false_iff in H as [Hq Ht]. rewrite Hq, (IH Ht). cbn.
  now rewrite orb_assoc.
Qed.

Lemma comesFirst_spec (p q : Event -> bool) (t : list Event) :
  (forall ev, p ev = true -> q ev = false) ->
  comesFirst p q t = true ->
  forall pre ev post, t = pre ++ ev :: post -> q ev = true ->
    existsb p pre = true.
Proof.
  intros Hpq. induction t as [| e t IH]; intros H pre ev post Ht Hq.
  - now destruct pre.
  - destruct pre as [| e' pre]; cbn in Ht; injection Ht as <- ->.
    + cbn in H. rewrite Hq in H. cbn in H. rewrite orb_false_r in H.
      apply Hpq in H. congruence.
    + cbn in *. destruct (p e); [reflexivity |]. cbn in *.
      apply andb_prop in H as [_ H]. eapply IH; eauto.
Qed.

(** A run that has its key has read it. *)
Lemma upToIdentity_loaded (w : World) (f : Flags) pre st :
  upToIdentity w f = (pre, Ret st) -> existsb isKeyLoad pre = true.
Proof.
  unfold upToIdentity, parseNat, loadNodeKey, writeAddress.
  cbn; repeat (case_world; cbn); intros [= <- <-]; reflexivity.
Qed.

Lemma fromIdentity_unreached (w : World) (f : Flags) (p q : Event -> bool) t :
  never q (trace (upToIdentity w f)) ->
  (forall pre st, upToIdentity w f = (pre, Ret st) ->
     existsb p pre = true) ->
  t = trace (main w f) -> comesFirst p q t = true.
Proof.
  intros Hq Hp ->. rewrite main_from_identity, trace_bind.
  rewrite comesFirst_app by exact Hq.
  destruct (upToIdentity w f) as [pre [o | st]] eqn:E; cbn [snd trace fst].
  - apply orb_true_r.
  - now rewrite (Hp pre st eq_refl).
Qed.

(** X11.  The key comes before the network: in every run, whatever resolves an
    address, binds a socket, sets up SCION, calls the NAT mechanism or starts
    an engine is preceded by the reading of the node key. *)
Theorem key_before_network (w : World) (f : Flags) pre ev post :
  trace (main w f) = pre ++ ev :: post ->
  isNetwork ev = true ->
  existsb isKeyLoad pre = true.
Proof.
  intros Ht Hev.
  apply (comesFirst_spec isKeyLoad isNetwork (trace (main w f))) with ev post;
    [now intros [] | | exact Ht | exact Hev].
  apply (fromIdentity_unreached w f);
    [never_chain | apply upToIdentity_loaded | reflexivity].
Qed.

Lemma key_before_network_witness :
  existsb isKeyLoad [EvNatParse "none"; EvHexToECDSA "05"] = true.
Proof.
  exact (key_before_network calmWorld legacyFlags
           [EvNatParse "none"; EvHexToECDSA "05"]
           (EvResolveUDPAddr "udp" "127.0.0.1:30301")
           [EvListenUDP "udp" lo30301;
            EvPrint "DISCOVER ListenUDP Bootnode main.go
";
            EvDiscoverListenUDP {| fd := 3; LocalAddr := lo30301 |}
              (mkCfg calmWorld key1 lo30301 None None)]
           eq_refl eq_refl).
Defined.

Lemma upToPrimary_not_after (w : World) (f : Flags) :
  never isAfterPrimary (trace (upToPrimary w f)).
Proof. never_chain. Qed.

(** X12.  The primary socket comes before the rest: in every run, the SCION
    set-up, the NAT calls and the engine start are preceded by the bind of
    the primary socket. *)
Theorem primary_bind_before_rest (w : World) (f : Flags) pre ev post :
  trace (main w f) = pre ++ ev :: post ->
  isAfterPrimary ev = true ->
  existsb isPrimaryBind pre = true.
Proof.
  intros Ht Hev.
  apply (comesFirst_spec isPrimaryBind isAfterPrimary (trace (main w f)))
    with ev post;
    [now intros [] | | exact Ht | exact Hev].
  rewrite main_from_primary, trace_bind.
  rewrite comesFirst_app by apply upToPrimary_not_after.
  destruct (upToPrimary w f) as [t [o | st]] eqn:E; cbn [snd trace fst].
  - apply orb_true_r.
  - apply upToPrimary_ends_in_bind in E as (pre' & addr & -> & _).
    rewrite existsb_app. cbn. now rewrite orb_true_r.
Qed.

Lemma primary_bind_before_rest_witness :
  existsb isPrimaryBind
    [EvNatParse "none"; EvHexToECDSA "05";
     EvResolveUDPAddr "udp" "127.0.0.1:30301"; EvListenUDP "udp" lo30301]
  = true.
Proof.
  exact (primary_bind_before_rest calmWorld
           (withScion "1-ff00:0:110,[127.0.0.1]:30303" legacyFlags)
           [EvNatParse "none"; EvHexToECDSA "05";
            EvResolveUDPAddr "udp" "127.0.0.1:30301"; EvListenUDP "udp" lo30301]
           (EvAddrFromString "1-ff00:0:110,[127.0.0.1]:30303")
           [EvSnetInit (IA_ scion1) (sciondAddrOf scion1) dispatcherAddr;
            EvListenSCION "udp4" scion1;
            EvPrint "DISCOVER ListenUDP Bootnode main.go
";
            EvDiscoverListenUDPSCION {| fd := 3; LocalAddr := lo30301 |} sconn1
              (mkCfg calmWorld key1 lo30301 (Some scion1) None)]
           eq_refl eq_refl).
Defined.

Lemma never_app (p : Event -> bool) (t1 t2 : list Event) :
  never p t1 -> never p t2 -> never p (t1 ++ t2).
Proof. unfold never. intros H1 H2. now rewrite existsb_app, H1, H2. Qed.

(** The one event of its class in a trace is where it is. *)
Lemma unique_split (q : Event -> bool) (l1 l2 pre post : list Event) x y :
  never q l1 -> never q l2 -> q x = true ->
  pre ++ x :: post = l1 ++ y :: l2 ->
  pre = l1 /\ x = y /\ post = l2.
Proof.
  intros N1 N2 Hx. revert pre.
  induction l1 as [| e l1 IH]; intros pre H.
  - destruct pre as [| e' pre]; cbn in H; injection H as -> H.
    + now subst.
    + exfalso. apply (never_not_in q l2 x N2 Hx). rewrite <- H.
      apply in_or_app. right. now left.
  - unfold never in N1. cbn in N1. apply orb_false_iff in N1 as [Qe N1].
    destruct pre as [| e' pre]; cbn in H; injection H as -> H.
    + congruence.
    + destruct (IH N1 pre H) as (-> & -> & ->). auto.
Qed.

(** X13.  The SCION socket is opened after the stack was initialised for it: in
    every run, a call to [snet.ListenSCION] is for the network "udp4" and
    the address that [snet.AddrFromString] made of [-scion], and the two
    calls just before it are that parsing and the call to [snet.Init] with
    the ISD-AS of the address, the sciond socket path derived from it and
    the default dispatcher socket path. *)
Theorem scion_socket_after_init (w : World) (f : Flags) pre net a post :
  trace (main w f) = pre ++ EvListenSCION net a :: post ->
  net = "udp4" /\
  scionAddrStr f <> "" /\
  snet_AddrFromString w (scionAddrStr f) = Ok a /\
  exists pre',
    pre = pre' ++ [EvAddrFromString (scionAddrStr f);
                   EvSnetInit (IA_ a) (sciondAddrOf a) dispatcherAddr] /\
    never isAlternate pre'.
Proof.
  intros Ht.
  assert (Hin : In (EvListenSCION net a) (trace (main w f)))
    by (rewrite Ht; apply in_or_app; right; now left).
  assert (N1 : never isAlternateBind (trace (upToPrimary w f))) by never_chain.
  assert (N3 : forall st, never isAlternateBind (trace (fromSCION w f st))).
  { intros st. pose proof (fromSCION_no_alternate w f st) as N.
    unfold never in *. apply not_true_is_false. intros H.
    apply existsb_exists in H as (ev & Hev & Hq).
    assert (existsb isAlternate (trace (fromSCION w f st)) = true)
      by (apply existsb_exists; exists ev; split; [exact Hev | now destruct ev]).
    congruence. }
  revert Ht Hin. rewrite main_from_primary, trace_bind.
  destruct (upToPrimary w f) as [t1 [o | st]] eqn:E; cbn [snd trace fst] in *.
  { intros _ Hin. rewrite app_nil_r in Hin.
    now apply (never_not_in _ _ _ N1) in Hin. }
  unfold fromPrimary. rewrite trace_bind.
  destruct (String.eqb_spec (scionAddrStr f) "") as [Es | Es].
  { assert (S : setupSCION w f = ([], Ret (None, None)))
      by (unfold setupSCION; now rewrite (nonempty_false _ Es)).
    rewrite S. cbn [snd trace fst app]. intros _ Hin.
    apply in_app_or in Hin as [Hin | Hin].
    - now apply (never_not_in _ _ _ N1) in Hin.
    - now apply (never_not_in _ _ _ (N3 _)) in Hin. }
  rewrite (setupSCION_run w f Es).
  destruct (snet_AddrFromString w (scionAddrStr f)) as [a0 | e] eqn:Ea;
    cbn [snd trace fst].
  2:{ intros _ Hin. rewrite app_nil_r in Hin.
      apply in_app_or in Hin as [Hin | [Hin | []]];
        [now apply (never_not_in _ _ _ N1) in Hin | discriminate]. }
  intros Ht _.
  set (t3 := match snet_ListenSCION w "udp4" a0 with
             | Ok c =>
                 trace (fromSCION w f (st, fst (Some a0, Some c),
                                       snd (Some a0, Some c)))
             | Err _ => []
             end).
  assert (Ht' : pre ++ EvListenSCION net a :: post =
                (t1 ++ [EvAddrFromString (scionAddrStr f);
                        EvSnetInit (IA_ a0) (sciondAddrOf a0) dispatcherAddr])
                  ++ EvListenSCION "udp4" a0 :: t3).
  { rewrite <- Ht, <- !app_assoc. cbn. subst t3.
    now destruct (snet_ListenSCION w "udp4" a0). }
  apply (unique_split isAlternateBind) in Ht' as (-> & [= -> ->] & _).
  - split; [reflexivity |]. split; [exact Es |]. split; [reflexivity |].
    exists t1. split; [reflexivity |].
    change t1 with (trace (t1, @Ret (option nat_Interface * PrivateKey
      * option Netlist * UDPConn) st)).
    rewrite <- E. apply upToPrimary_no_alternate.
  - apply never_app; [exact N1 | reflexivity].
  - subst t3. destruct (snet_ListenSCION w "udp4" a0); [apply N3 | reflexivity].
  - reflexivity.
Qed.

Lemma scion_socket_after_init_witness :
  "udp4" = "udp4" /\
  scionAddrStr (withScion "1-ff00:0:110,[127.0.0.1]:30303" legacyFlags) <> "" /\
  snet_AddrFromString calmWorld
    (scionAddrStr (withScion "1-ff00:0:110,[127.0.0.1]:30303" legacyFlags))
  = Ok scion1 /\
  exists pre',
    [EvNatParse "none"; EvHexToECDSA "05";
     EvResolveUDPAddr "udp" "127.0.0.1:30301"; EvListenUDP "udp" lo30301;
     EvAddrFromString "1-ff00:0:110,[127.0.0.1]:30303";
     EvSnetInit (IA_ scion1) (sciondAddrOf scion1) dispatcherAddr]
    = pre' ++ [EvAddrFromString
                 (scionAddrStr
                    (withScion "1-ff00:0:110,[127.0.0.1]:30303" legacyFlags));
               EvSnetInit (IA_ scion1) (sciondAddrOf scion1) dispatcherAddr] /\
    never isAlternate pre'.
Proof.
  exact (scion_socket_after_init calmWorld
           (withScion "1-ff00:0:110,[127.0.0.1]:30303" legacyFlags)
           [EvNatParse "none"; EvHexToECDSA "05";
            EvResolveUDPAddr "udp" "127.0.0.1:30301"; EvListenUDP "udp" lo30301;
            EvAddrFromString "1-ff00:0:110,[127.0.0.1]:30303";
            EvSnetInit (IA_ scion1) (sciondAddrOf scion1) dispatcherAddr]
           "udp4" scion1
           [EvPrint "DISCOVER ListenUDP Bootnode main.go
";
            EvDiscoverListenUDPSCION {| fd := 3; LocalAddr := lo30301 |} sconn1
              (mkCfg calmWorld key1 lo30301 (Some scion1) None)]
           eq_refl).
Defined.

(** ** The sciond socket path (line 127) *)

Lemma int_small (z : Z) : 0 <= z < 2 ^ 63 -> int z = z.
Proof.
  intros H. unfold int. rewrite Z.mod_small by lia.
  destruct (Z.ltb_spec z (2 ^ 63)); lia.
Qed.

Lemma int_inj (z z' : Z) :
  0 <= z < 2 ^ 64 -> 0 <= z' < 2 ^ 64 -> int z = int z' -> z = z'.
Proof.
  intros H H'. unfold int. rewrite !Z.mod_small by lia.
  destruct (Z.ltb_spec z (2 ^ 63)), (Z.ltb_spec z' (2 ^ 63)); lia.
Qed.

Lemma Itoa_inj (z z' : Z) : Itoa z = Itoa z' -> z = z'.
Proof.
  assert (P : forall x, NilZero.int_of_string (Itoa x) = Some (Z.to_int x)).
  { intros x. unfold Itoa. apply NilZero.isi; destruct x; cbn; try discriminate;
      intros [= E]; now apply DecimalPos.Unsigned.to_uint_nonnil in E. }
  intros E. apply DecimalZ.to_int_inj.
  pose proof (P z) as Pz. rewrite E, P in Pz. now injection Pz.
Qed.

Lemma digits_no_char (c : ascii) (d : Decimal.uint) :
  hasChar c "0123456789" = false ->
  hasChar c (NilEmpty.string_of_uint d) = false.
Proof.
  intros H. cbn [hasChar] in H. repeat (apply orb_false_iff in H as [? H]).
  induction d; cbn [NilEmpty.string_of_uint hasChar]; rewrite ?IHd;
    repeat match goal with
           | E : Ascii.eqb _ c = false |- _ => rewrite E; clear E
           end; reflexivity.
Qed.

Lemma Itoa_no_char (c : ascii) (z : Z) :
  hasChar c "-0123456789" = false -> hasChar c (Itoa z) = false.
Proof.
  intros H. cbn [hasChar] in H. apply orb_false_iff in H as [Hm H].
  assert (U : forall d, hasChar c (NilZero.string_of_uint d) = false).
  { intros d. pose proof (digits_no_char c d H) as D.
    destruct d; try exact D. exact (digits_no_char c (Decimal.D0 Decimal.Nil) H). }
  unfold Itoa. destruct (Z.to_int z) as [d | d]; cbn [NilZero.string_of_int].
  - apply U.
  - cbn [hasChar]. now rewrite Hm, U.
Qed.

Lemma Itoa_nonneg_no_minus (z : Z) :
  0 <= z -> hasChar "-" (Itoa z) = false.
Proof.
  intros H. unfold Itoa.
  assert (U : forall d, hasChar "-" (NilZero.string_of_uint d) = false).
  { intros d. pose proof (digits_no_char "-" d eq_refl) as D.
    destruct d; exact D. }
  destruct z as [| p | p]; cbn [Z.to_int NilZero.string_of_int];
    [apply U | apply U | lia].
Qed.

(** Two strings without [c] that are followed by [c] and agree up to the
    end are the same, and so is what follows. *)
Lemma split_at_char (c : ascii) (s s' r r' : string) :
  hasChar c s = false -> hasChar c s' = false ->
  (s ++ String c r)%string = (s' ++ String c r')%string ->
  s = s' /\ r = r'.
Proof.
  revert s'. induction s as [| x s IH]; intros [| x' s'] H H' E; cbn in *.
  - now injection E.
  - injection E as <- _. now rewrite Ascii.eqb_refl in H'.
  - injection E as -> _. now rewrite Ascii.eqb_refl in H.
  - injection E as <- E.
    apply orb_false_iff in H as [_ H]. apply orb_false_iff in H' as [_ H'].
    destruct (IH s' H H' E) as [-> ->]. auto.
Qed.

Lemma append_cancel_l (p x y : string) :
  (p ++ x)%string = (p ++ y)%string -> x = y.
Proof. induction p as [| c p IH]; cbn; [auto | intros [= E]; auto]. Qed.

(** X14.  Line 127 gives different ISD-AS numbers different sciond socket paths:
    for ISD numbers of 16 bits and AS numbers of 64 bits, two addresses with
    the same path have the same ISD and the same AS. *)
Theorem sciond_path_injective (a a' : snet_Addr) :
  0 <= I (IA_ a) < 2 ^ 16 -> 0 <= I (IA_ a') < 2 ^ 16 ->
  0 <= A (IA_ a) < 2 ^ 64 -> 0 <= A (IA_ a') < 2 ^ 64 ->
  sciondAddrOf a = sciondAddrOf a' ->
  IA_ a = IA_ a'.
Proof.
  intros HI HI' HA HA' E. unfold sciondAddrOf in E.
  apply append_cancel_l in E.
  change ("-" ++ ?x)%string with (String "-" x) in E.
  apply split_at_char in E as [EI E];
    [| apply Itoa_nonneg_no_minus; rewrite int_small; lia
     | apply Itoa_nonneg_no_minus; rewrite int_small; lia].
  apply split_at_char in E as [EA _];
    [| now apply Itoa_no_char | now apply Itoa_no_char].
  apply Itoa_inj in EI, EA.
  rewrite !int_small in EI by lia. apply int_inj in EA; [| lia | lia].
  destruct a as [[i j] h p], a' as [[i' j'] h' p']. cbn in *. congruence.
Qed.

Lemma sciond_path_injective_witness :
  IA_ scion1 = IA_ {| IA_ := {| I := 1; A := 280375465083152 |};
                      Host := [10;0;0;1]; L4Port := 40000 |}.
Proof.
  apply sciond_path_injective; cbn; try lia. reflexivity.
Defined.

(** ** Every abort has its cause *)

(** Is the flag empty? *)
Ltac case_empty s :=
  let E := fresh "E" in
  destruct (String.eqb_spec s "") as [E | E];
  [rewrite E in * | idtac].

Lemma upToSCION_abort (w : World) (f : Flags) t msg :
  upToSCION w f = (t, Done (Fatal msg)) -> AbortCause w f msg.
Proof.
  unfold upToSCION, upToPrimary, upToIdentity,
    parseNat, loadNodeKey, writeAddress, parseRestrict, listenPrimary,
    setupSCION, nonempty.
  case_empty (genKey f); case_empty (nodeKeyFile f); case_empty (nodeKeyHex f);
  case_empty (netrestrict f); case_empty (scionAddrStr f);
  cbn; repeat (case_world; cbn); intros [= <- <-];
  solve [ econstructor; eassumption ].
Qed.

(** X15.  A run aborts only for a cause: the message of the abort is the message
    of one of the [utils.Fatalf] calls of [main], and the call or the flags
    that it blames did fail: the NAT descriptor, the generation or saving of
    the key, the missing or doubled key source, the key file or hex string,
    the netlist, the listen address, the bind, the SCION address, the SCION
    socket, or the start of the engine. *)
Theorem abort_has_cause (w : World) (f : Flags) msg :
  outcome (main w f) = Fatal msg -> AbortCause w f msg.
Proof.
  rewrite main_from_SCION.
  destruct (upToSCION w f) as [t [o | st]] eqn:E.
  - cbn. intros ->. eapply upToSCION_abort; eassumption.
  - destruct st as [[[[[natm k] rl] conn] sa] sc]. cbn [bind].
    unfold fromSCION.
    destruct (natAnnounce_returns w natm conn) as (t' & ra & ->). cbn [bind].
    destruct (fromDispatch_outcome w f natm k rl conn sa sc ra) as (b & ->).
    cbn.
    destruct (engineResult w f k conn sa sc ra rl) as [e |] eqn:Ee;
      [| discriminate].
    intros [= <-]. eapply AbortEngine; eassumption.
Qed.

Lemma abort_has_cause_witness :
  AbortCause portTakenWorld legacyFlags
    ("-ListenUDP: " ++ "bind: address already in use").
Proof.
  exact (abort_has_cause portTakenWorld legacyFlags
           ("-ListenUDP: " ++ "bind: address already in use") eq_refl).
Defined.

(** ** A run in which nothing fails *)

Lemma upToDispatch_reached (w : World) (f : Flags) natm k addr conn :
  genKey f = "" -> writeAddr f = false ->
  nat_Parse w (natdesc f) = Ok natm ->
  (nodeKeyFile f <> "" /\ nodeKeyHex f = "" /\
   crypto_LoadECDSA w (nodeKeyFile f) = Ok k \/
   nodeKeyFile f = "" /\ nodeKeyHex f <> "" /\
   crypto_HexToECDSA w (nodeKeyHex f) = Ok k) ->
  (netrestrict f = "" \/
   exists l, netutil_ParseNetlist w (netrestrict f) = Ok l) ->
  net_ResolveUDPAddr w "udp" (listenAddr f) = Ok addr ->
  net_ListenUDP w "udp" addr = Ok conn ->
  (scionAddrStr f = "" \/
   exists a c, snet_AddrFromString w (scionAddrStr f) = Ok a /\
               snet_ListenSCION w "udp4" a = Ok c) ->
  exists pre rl sa sc ra,
    upToDispatch w f = (pre, Ret (natm, k, rl, conn, sa, sc, ra)).
Proof.
  intros Hg Hw Hn Hkey Hnet Hr Hl Hsc.
  assert (Hid : exists t, upToIdentity w f = (t, Ret (natm, k))).
  { unfold upToIdentity, parseNat, loadNodeKey, writeAddress.
    rewrite (nonempty_false _ Hg), Hn, Hw. cbn.
    destruct Hkey as [(Hf & Hh & Hk) | (Hf & Hh & Hk)];
      rewrite ?(nonempty_true _ Hf), ?(nonempty_false _ Hf),
        ?(nonempty_true _ Hh), ?(nonempty_false _ Hh); cbn;
      rewrite Hk; cbn; eauto. }
  destruct Hid as (t1 & Hid).
  assert (Hrl : exists t rl, parseRestrict w f = (t, Ret rl)).
  { unfold parseRestrict. destruct Hnet as [E | (l & Hp)].
    - rewrite (nonempty_false _ E). unfold ret. eauto.
    - destruct (nonempty (netrestrict f)); cbn; [rewrite Hp |]; cbn;
        unfold ret; eauto. }
  destruct Hrl as (t2 & rl & Hrl).
  assert (Hlp : exists t, listenPrimary w f = (t, Ret conn))
    by (rewrite listenPrimary_run, Hr, Hl; eauto).
  destruct Hlp as (t3 & Hlp).
  assert (Hs : exists t sa sc, setupSCION w f = (t, Ret (sa, sc))).
  { destruct Hsc as [E | (a & c & Ha & Hc)].
    - unfold setupSCION. rewrite (nonempty_false _ E). unfold ret. eauto.
    - unfold setupSCION. destruct (nonempty (scionAddrStr f)); cbn;
        [rewrite Ha; cbn; rewrite Hc; cbn | unfold ret]; eauto. }
  destruct Hs as (t4 & sa & sc & Hs).
  destruct (natAnnounce_returns w natm conn) as (t5 & ra & Hra).
  exists (((t1 ++ t2 ++ t3) ++ t4) ++ t5), rl, sa, sc, ra.
  unfold upToDispatch, upToSCION, upToPrimary.
  rewrite Hid. cbn [bind]. rewrite Hrl. cbn [bind]. rewrite Hlp. cbn.
  rewrite Hs. cbn. rewrite Hra. cbn. now rewrite !app_nil_r.
Qed.

(** X16.  When nothing fails, the node comes up.  Without [-genkey] and
    [-writeaddress], with a NAT descriptor that parses, exactly one key
    source that yields a key, a netlist that is empty or parses, a listen
    address that resolves and binds, a SCION address that is empty or
    parses and binds, and an engine that starts, the run starts exactly one
    engine, with that key, and blocks. *)
Theorem startup_succeeds (w : World) (f : Flags) natm k addr conn :
  genKey f = "" -> writeAddr f = false ->
  nat_Parse w (natdesc f) = Ok natm ->
  (nodeKeyFile f <> "" /\ nodeKeyHex f = "" /\
   crypto_LoadECDSA w (nodeKeyFile f) = Ok k \/
   nodeKeyFile f = "" /\ nodeKeyHex f <> "" /\
   crypto_HexToECDSA w (nodeKeyHex f) = Ok k) ->
  (netrestrict f = "" \/
   exists l, netutil_ParseNetlist w (netrestrict f) = Ok l) ->
  net_ResolveUDPAddr w "udp" (listenAddr f) = Ok addr ->
  net_ListenUDP w "udp" addr = Ok conn ->
  (scionAddrStr f = "" \/
   exists a c, snet_AddrFromString w (scionAddrStr f) = Ok a /\
               snet_ListenSCION w "udp4" a = Ok c) ->
  (forall sa sc ra rl, engineResult w f k conn sa sc ra rl = None) ->
  outcome (main w f) = Block /\
  exists ev,
    filter isEngineStart (trace (main w f)) = [ev] /\ keyOf ev = Some k.
Proof.
  intros Hg Hw Hn Hkey Hnet Hr Hl Hsc Heng.
  destruct (upToDispatch_reached w f natm k addr conn
              Hg Hw Hn Hkey Hnet Hr Hl Hsc) as (pre & rl & sa & sc & ra & H).
  split.
  - destruct (fromDispatch_outcome w f natm k rl conn sa sc ra) as (b & R).
    rewrite main_from_dispatch, H. cbn [bind]. rewrite R, Heng. reflexivity.
  - exists (engineCall w f k conn sa sc ra rl).
    split; [eapply engines_of_run; eassumption |].
    unfold engineCall. destruct (runv5 f); [| destruct sa, sc]; reflexivity.
Qed.

Lemma startup_succeeds_witness :
  outcome (main lanWorld
             (withNat "upnp"
                (withNetrestrict "10.0.0.0/8"
                   (withScion "1-ff00:0:110,[127.0.0.1]:30303" legacyFlags))))
  = Block /\
  exists ev,
    filter isEngineStart
      (trace (main lanWorld
                (withNat "upnp"
                   (withNetrestrict "10.0.0.0/8"
                      (withScion "1-ff00:0:110,[127.0.0.1]:30303" legacyFlags)))))
    = [ev] /\ keyOf ev = Some key1.
Proof.
  apply (startup_succeeds lanWorld
           (withNat "upnp"
              (withNetrestrict "10.0.0.0/8"
                 (withScion "1-ff00:0:110,[127.0.0.1]:30303" legacyFlags)))
           (Some NatUPnP) key1 lan30301 {| fd := 3; LocalAddr := lan30301 |}).
  - reflexivity.
  - reflexivity.
  - reflexivity.
  - right. split; [reflexivity |]. split; [discriminate | reflexivity].
  - right. now exists net1.
  - reflexivity.
  - reflexivity.
  - right. now exists scion1, sconn1.
  - intros [a |] [c |] ra rl; reflexivity.
Defined.
